(** * haxball-league-dashboard-bff: statistics page and database console

    A shallow embedding of [pages_experimental/4_Statistics.py] and
    [pages_experimental/6_Database_operations.py].

    Conventions of the embedding:
    - Python [int] is [Z]; Python [str] is [string], read as the UTF-8 bytes
      of the text (every separator the code looks for is ASCII);
    - a Python list is a [list], a [dict] keyed by names a [gmap string _];
    - a call that may raise returns a [result]; code that also writes to the
      database runs in the monad [db_action], which keeps the database as it
      stands at the moment of the exception;
    - polars [Float64] columns are IEEE binary64 numbers ([PrimFloat.float]).

    The file has two parts: the definitions, then the theorems. *)

From Stdlib Require Import ZArith Floats Ascii String DecimalString.
From stdpp Require Import gmap strings list.

Open Scope Z_scope.

(* ===================================================================== *)
(** * Part I: definitions                                                 *)
(* ===================================================================== *)

(** ** Exceptions *)

Inductive Exception :=
  | KeyError
  | ValueError
  | IndexError
  | AttributeError
  | InvalidOperationError
  | ComputeError.

Inductive result (A : Type) :=
  | Ok (a : A)
  | Raise (e : Exception).
Arguments Ok {A} a.
Arguments Raise {A} e.

Definition rbind {A B} (r : result A) (k : A → result B) : result B :=
  match r with
  | Ok a => k a
  | Raise e => Raise e
  end.

Notation "x ←? r ; k" := (rbind r (λ x, k))
  (at level 20, r at level 100, k at level 200, right associativity,
   format "x  ←?  r ;  '/' k").

(** [[f(x) for x in l]] where [f] may raise: the first exception wins. *)
Fixpoint rmap {A B} (f : A → result B) (l : list A) : result (list B) :=
  match l with
  | [] => Ok []
  | x :: l' => y ←? f x; ys ←? rmap f l'; Ok (y :: ys)
  end.

(** [d[k]] on a dict. *)
Definition getitem {V} (d : gmap string V) (k : string) : result V :=
  match d !! k with
  | Some v => Ok v
  | None => Raise KeyError
  end.

(** [enumerate(l)], counting from [n]. *)
Fixpoint enumerate_from {A} (n : Z) (l : list A) : list (Z * A) :=
  match l with
  | [] => []
  | x :: l' => (n, x) :: enumerate_from (n + 1) l'
  end.

Definition enumerate {A} (l : list A) : list (Z * A) := enumerate_from 0 l.

(** [{v: i for i, v in pairs}]: a later pair overwrites an earlier one. *)
Definition dict_of_enumerate (pairs : list (Z * string)) : gmap string Z :=
  foldl (λ d iv, <[iv.2 := iv.1]> d) ∅ pairs.

(** [list(d.values())]. *)
Definition values (d : gmap string Z) : list Z := (map_to_list d).*2.

(** [max(l)] and [min(l)]: [ValueError] on an empty sequence. *)
Definition py_max (l : list Z) : result Z :=
  match l with
  | [] => Raise ValueError
  | x :: l' => Ok (foldl Z.max x l')
  end.

Definition py_min (l : list Z) : result Z :=
  match l with
  | [] => Raise ValueError
  | x :: l' => Ok (foldl Z.min x l')
  end.

(** [set(l)] of integers, and its iteration. *)
Definition py_set (l : list Z) : list Z := elements (list_to_set l : gset Z).

(* --------------------------------------------------------------------- *)
(** ** 4_Statistics.py                                                    *)
(* --------------------------------------------------------------------- *)

(** *** Numbers

    A Python number, and a cell of a polars column: an [int] ([Int64]) or a
    [float] ([Float64]). *)
Inductive value :=
  | VInt (z : Z)
  | VFloat (f : float).

Definition is_int (v : value) : bool :=
  match v with
  | VInt _ => true
  | VFloat _ => false
  end.

(** The cast of an integer to [Float64]: the nearest binary64 number, ties
    to even. *)
Definition float_of_Z (z : Z) : float := SF2Prim (binary_normalize prec emax z 0 false).

Definition to_float (v : value) : float :=
  match v with
  | VInt z => float_of_Z z
  | VFloat f => f
  end.


(** *** Records read from the database (prisma models, with relations) *)

Record LeagueDivision := {
  division_id : Z;
  division_name : string
}.

Record LeagueTeamRef := { team_ref_name : string }.

(** One of the two team-details of a match; [md.team.name] is
    [team_ref_name (detail_team md)]. *)
Record LeagueMatchDetail := {
  detail_team : LeagueTeamRef;
  startsRed : bool;
  home : bool
}.

(** The counts of one stat line; the columns [display_stats] reads.  The
    schema is not among the sources: the playing time is a number, an [int]
    or a [float], and the page floors it. *)
Record PlayerStats := {
  goals : Z;
  assists : Z;
  saves : Z;
  ownGoals : Z;
  passesAttempted : Z;
  passesSuccessful : Z;
  shots : Z;
  shotsTarget : Z;
  touches : Z;
  kicks : Z;
  secondaryAssists : Z;
  tertiaryAssists : Z;
  reboundDribbles : Z;
  duels : Z;
  interceptions : Z;
  clears : Z;
  averagePosX : float;
  gametime : value;
  gamePosition : Z
}.

(** A line of a period as recorded: who played, for which team. *)
Record PeriodLine := {
  line_player_name : string;
  line_team : LeagueTeamRef;
  line_stats : PlayerStats;
  line_cs : Z
}.

Record LeaguePeriod := {
  period_id : Z;
  period_lines : list PeriodLine
}.

Record LeagueMatch := {
  match_id : Z;
  leagueDivisionId : Z;
  matchday : string;
  title : string;
  detail : list LeagueMatchDetail;
  periods : list LeaguePeriod
}.

Record LeaguePlayer := {
  player_id : Z;
  player_name : string;
  nicks : list string
}.

(** [team.players]: the link rows of a team, each with its player. *)
Record LeaguePlayerTeams := {
  link_player : LeaguePlayer;
  active : bool
}.

Record LeagueTeamDivisions := { link_leagueDivisionId : Z }.

Record LeagueTeam := {
  team_id : Z;
  team_name : string;
  divisions : list LeagueTeamDivisions;
  players : list LeaguePlayerTeams
}.

(** Modelled from the spec: [utils.utils.PlayerStatSheet] is not among the
    sources.  The spec gives it a player identity "or none, if unmatched to a
    roster", a team, the period, playing time and counting stats. *)
Record PlayerStatSheet := {
  player : option LeaguePlayer;
  sheet_player_name : string;
  sheet_team : LeagueTeamRef;
  period_nb : Z;
  stats : PlayerStats;
  cs : Z
}.

#[global] Instance LeagueDivision_eq_dec : EqDecision LeagueDivision.
Proof. solve_decision. Defined.
#[global] Instance LeagueTeamRef_eq_dec : EqDecision LeagueTeamRef.
Proof. solve_decision. Defined.

(** Modelled from the spec: [utils.utils.get_unique_order] is not among the
    sources.  "Order is assigned by first occurrence in the division's match
    list (stable de-duplication), not by sorting the labels." *)
Fixpoint get_unique_order (l : list string) : list string :=
  match l with
  | [] => []
  | x :: l' => x :: filter (λ y, y ≠ x) (get_unique_order l')
  end.

(** Modelled from the spec: [utils.utils.is_match_played] is not among the
    sources.  "A match's played status is derived from whether it has any
    periods." *)
Definition is_match_played (m : LeagueMatch) : bool :=
  match periods m with
  | [] => false
  | _ :: _ => true
  end.

(** [[m for m in matches if m.leagueDivisionId == division.id]] *)
Definition matches_of_division (matches : list LeagueMatch) (division : LeagueDivision)
  : list LeagueMatch :=
  filter (λ m, leagueDivisionId m = division_id division) matches.

(** [md_dict] of [get_max_matchday_stats] and [filter_matches]. *)
Definition md_dict_of (matches_div : list LeagueMatch) : gmap string Z :=
  let md_list := get_unique_order (matchday <$> matches_div) in
  dict_of_enumerate (enumerate md_list).

Definition get_max_matchday_stats
    (matches : list LeagueMatch) (division : option LeagueDivision) : result Z :=
  match division with
  | None => Ok 1
  | Some division =>
    let matches_div := matches_of_division matches division in
    let md_dict := md_dict_of matches_div in
    if decide (size md_dict = 0%nat) then Ok 0 else
    md_val_not_played ←?
      rmap (λ m, getitem md_dict (matchday m))
           (filter (λ m, is_match_played m = false) matches_div);
    if decide (length md_val_not_played = 0%nat) then py_max (values md_dict) else
    min_md_val_no_play ←? py_min (py_set md_val_not_played);
    Ok (Z.max 0 (min_md_val_no_play - 1))
  end.

(** [any([md.team.name == team_name for md in m.detail])] *)
Definition team_in_detail (team_name : string) (m : LeagueMatch) : bool :=
  existsb (λ md, bool_decide (team_ref_name (detail_team md) = team_name)) (detail m).

(** The loop of [filter_matches]; [md_dict[m.matchday]] may raise. *)
Fixpoint filter_matches_loop (md_dict : gmap string Z) (team_name : option string)
    (matchdays_select : Z * Z) (matches_div : list LeagueMatch)
  : result (list LeagueMatch) :=
  match matches_div with
  | [] => Ok []
  | m :: rest =>
    i ←? getitem md_dict (matchday m);
    if bool_decide (i < matchdays_select.1) || bool_decide (i > matchdays_select.2)
    then filter_matches_loop md_dict team_name matchdays_select rest
    else
      let keep := match team_name with
                  | None => true
                  | Some t => team_in_detail t m
                  end in
      tail ←? filter_matches_loop md_dict team_name matchdays_select rest;
      Ok (if keep then m :: tail else tail)
  end.

Definition filter_matches (matches : list LeagueMatch) (team_name : option string)
    (division : option LeagueDivision) (matchdays_select : Z * Z)
  : result (list LeagueMatch) :=
  match division with
  | None => Ok matches
  | Some division =>
    let matches_div := matches_of_division matches division in
    filter_matches_loop (md_dict_of matches_div) team_name matchdays_select matches_div
  end.

(** The matchday index the spec assigns to a label: its position in the
    first-seen order of the division's labels. *)
Definition assigned_index (matches_div : list LeagueMatch) (label : string) : option Z :=
  (λ p, Z.of_nat p.1) <$> list_find (λ v, v = label) (get_unique_order (matchday <$> matches_div)).

(** What [filter_matches] is specified to keep among the matches of the
    division: the label's index lies in [[a, b]] and, when a team name is
    given, the name appears among the match's team-details. *)
Definition in_matchday_range (matches_div : list LeagueMatch) (a b : Z) (m : LeagueMatch) : Prop :=
  match assigned_index matches_div (matchday m) with
  | Some i => a ≤ i ≤ b
  | None => False
  end.

Definition team_appears (team_name : option string) (m : LeagueMatch) : Prop :=
  match team_name with
  | None => True
  | Some t => t ∈ (λ md, team_ref_name (detail_team md)) <$> detail m
  end.

(** The matches "that belong to the selected division", in the words of the
    spec: the index of a label is assigned within their list. *)
Definition belongs_to (division : LeagueDivision) (m : LeagueMatch) : Prop :=
  leagueDivisionId m = division_id division.

#[global] Instance belongs_to_dec division m : Decision (belongs_to division m).
Proof. unfold belongs_to. apply _. Defined.

Definition kept_by_filter (matches : list LeagueMatch) (team_name : option string)
    (division : LeagueDivision) (a b : Z) (m : LeagueMatch) : Prop :=
  belongs_to division m
  ∧ in_matchday_range (filter (belongs_to division) matches) a b m
  ∧ team_appears team_name m.

#[global] Instance in_matchday_range_dec matches_div a b m :
  Decision (in_matchday_range matches_div a b m).
Proof. unfold in_matchday_range. destruct (assigned_index _ _); apply _. Defined.

#[global] Instance team_appears_dec team_name m : Decision (team_appears team_name m).
Proof. unfold team_appears. destruct team_name; apply _. Defined.

#[global] Instance kept_by_filter_dec matches team_name division a b m :
  Decision (kept_by_filter matches team_name division a b m).
Proof. unfold kept_by_filter. apply _. Defined.

(** *** Roster resolution and aggregation *)

Section GetStats.
(** [utils.utils.get_statsheet_list] and [utils.utils.sum_sheets] are not
    among the sources: [get_stats] is read for every behaviour of theirs. *)
Variable get_statsheet_list : list LeaguePlayer → LeagueMatch → list PlayerStatSheet.
Variable sum_sheets : list PlayerStatSheet → list PlayerStatSheet.

(** The first loop of [get_stats]: [period_sheets.extend(ps_list)]. *)
Definition period_sheets_of (matches_filter : list LeagueMatch)
    (players : list LeaguePlayer) : list PlayerStatSheet :=
  foldl (λ period_sheets m, period_sheets ++ get_statsheet_list players m) [] matches_filter.

(** [div_select is None or div_select.id in [td.leagueDivisionId ...]] *)
Definition team_in_division (div_select : option LeagueDivision) (team : LeagueTeam) : Prop :=
  match div_select with
  | None => True
  | Some d => division_id d ∈ link_leagueDivisionId <$> divisions team
  end.

(** [team_name_select is None or (... and team.name == team_name_select)] *)
Definition team_is_selected (team_name_select : option string) (team : LeagueTeam) : Prop :=
  match team_name_select with
  | None => True
  | Some t => team_name team = t
  end.

#[global] Instance team_in_division_dec div_select team :
  Decision (team_in_division div_select team).
Proof. unfold team_in_division. destruct div_select; apply _. Defined.

#[global] Instance team_is_selected_dec team_name_select team :
  Decision (team_is_selected team_name_select team).
Proof. unfold team_is_selected. destruct team_name_select; apply _. Defined.

(** [[p.player.id for p in team.players if p.active]] *)
Definition active_players_id (team : LeagueTeam) : list Z :=
  (λ p, player_id (link_player p)) <$> filter (λ p, active p = true) (players team).

(** The second loop of [get_stats]: [players_stats_id]. *)
Definition players_stats_id_of (teams : list LeagueTeam)
    (div_select : option LeagueDivision) (team_name_select : option string) : list Z :=
  foldl (λ players_stats_id team,
           if decide (team_in_division div_select team) then
             if decide (team_is_selected team_name_select team) then
               players_stats_id ++ active_players_id team
             else players_stats_id
           else players_stats_id)
        [] teams.

(** [ps.player is not None and ps.player.id in players_stats_id] *)
Definition in_roster (players_stats_id : list Z) (ps : PlayerStatSheet) : Prop :=
  match player ps with
  | None => False
  | Some p => player_id p ∈ players_stats_id
  end.

#[global] Instance in_roster_dec players_stats_id ps : Decision (in_roster players_stats_id ps).
Proof. unfold in_roster. destruct (player ps); apply _. Defined.

Definition get_stats (matches_filter : list LeagueMatch) (teams : list LeagueTeam)
    (players : list LeaguePlayer) (div_select : option LeagueDivision)
    (team_name_select : option string) : list PlayerStatSheet :=
  let player_sheets := sum_sheets (period_sheets_of matches_filter players) in
  let players_stats_id := players_stats_id_of teams div_select team_name_select in
  filter (in_roster players_stats_id) player_sheets.

(** [empty_sheets] of [show_missing_stats]: the lines the admin view writes,
    one per sheet without a player, with the match it comes from. *)
Definition show_missing_stats (matches_filter : list LeagueMatch)
    (players : list LeaguePlayer) : list (PlayerStatSheet * LeagueMatch) :=
  foldl (λ empty_sheets m,
           empty_sheets ++
           ((λ ps, (ps, m)) <$> filter (λ ps, player ps = None)
                                       (get_statsheet_list players m)))
        [] matches_filter.
End GetStats.

(** *** Display transform *)

(** polars [/] is true division: both sides are cast to [Float64] and the
    quotient is the IEEE one (no exception; x/0 is an infinity or NaN). *)
Definition truediv (x y : value) : value :=
  VFloat (PrimFloat.div (to_float x) (to_float y)).

(** A row of the table [display_stats] shows; the playing time is [None]
    when its cell is empty. *)
Record DisplayRow := {
  row_name : string;
  row_gamePosition : Z;
  row_gametime : option Z;
  row_goals : value;
  row_assists : value;
  row_cs : value;
  row_saves : value;
  row_ownGoals : value;
  row_passes : value;
  row_passSuccess : value;
  row_shots : value;
  row_shotsTarget : value;
  row_touches : value;
  row_kicks : value;
  row_assists_2 : value;
  row_assists_3 : value;
  row_rebounds : value;
  row_duels : value;
  row_interceptions : value;
  row_clears : value;
  row_averagePosX : float
}.

Section Display.
(** [utils.constants.GAME_TIME] is not among the sources: the minutes of a
    half, an integer (the page prints [GAME_TIME * 2] as a number of minutes). *)
Variable GAME_TIME : Z.

Definition treat_stat (stat : value) (normalized : bool) (gametime : value) : value :=
  if normalized then truediv stat (truediv gametime (VInt (GAME_TIME * 2 * 60)))
  else stat.

(** [.floor().cast(pl.Int64)] on a cell of a [Float64] column: the greatest
    whole number not above the cell.  A NaN of the pandas frame is an empty
    cell of the polars one ([pl.DataFrame(df_pd)] reads NaN as null), and
    stays empty.  The cast is strict: [ComputeError] on an infinity and on a
    number outside [Int64]. *)
Definition floor_cast_int64 (f : float) : result (option Z) :=
  match Prim2SF f with
  | S754_zero _ => Ok (Some 0)
  | S754_finite s m e =>
    let z := Z.shiftl (if s then Z.neg m else Z.pos m) e in
    if decide (- 2 ^ 63 ≤ z < 2 ^ 63) then Ok (Some z) else Raise ComputeError
  | S754_nan => Ok None
  | S754_infinity _ => Raise ComputeError
  end.

(** [pl.col("stats.gametime").floor().cast(pl.Int64)] on the column of the
    frame.  [pd.json_normalize] and polars make the column [Int64] when every
    playing time is an [int], and [Float64], the ints cast, as soon as one is
    a [float]; [floor()] is not defined on a column of integers:
    [InvalidOperationError]. *)
Definition gametime_column (cells : list value) : result (list (option Z)) :=
  if forallb is_int cells then Raise InvalidOperationError
  else rmap (λ v, floor_cast_int64 (to_float v)) cells.

(** The [select] of [display_stats] on one sheet whose player is [p] and
    whose floored playing time is [gametime_floor], as [df.to_pandas()]
    gives it: a quotient by an empty cell is empty in polars and NaN in the
    pandas frame, as is a quotient by NaN. *)
Definition select_row (normalized : bool) (p : LeaguePlayer) (ps : PlayerStatSheet)
    (gametime_floor : option Z) : DisplayRow :=
  let st := stats ps in
  let time := from_option VInt (VFloat nan) gametime_floor in
  {| row_name := player_name p;
     row_gamePosition := gamePosition st;
     row_gametime := gametime_floor;
     row_goals := treat_stat (VInt (goals st)) normalized time;
     row_assists := treat_stat (VInt (assists st)) normalized time;
     row_cs := treat_stat (VInt (cs ps)) normalized time;
     row_saves := treat_stat (VInt (saves st)) normalized time;
     row_ownGoals := treat_stat (VInt (ownGoals st)) normalized time;
     row_passes := treat_stat (VInt (passesAttempted st)) normalized time;
     row_passSuccess := truediv (VInt (passesSuccessful st)) (VInt (passesAttempted st));
     row_shots := treat_stat (VInt (shots st)) normalized time;
     row_shotsTarget := treat_stat (VInt (shotsTarget st)) normalized time;
     row_touches := treat_stat (VInt (touches st)) normalized time;
     row_kicks := treat_stat (VInt (kicks st)) normalized time;
     row_assists_2 := treat_stat (VInt (secondaryAssists st)) normalized time;
     row_assists_3 := treat_stat (VInt (tertiaryAssists st)) normalized time;
     row_rebounds := treat_stat (VInt (reboundDribbles st)) normalized time;
     row_duels := treat_stat (VInt (duels st)) normalized time;
     row_interceptions := treat_stat (VInt (interceptions st)) normalized time;
     row_clears := treat_stat (VInt (clears st)) normalized time;
     row_averagePosX := averagePosX st |}.

(** [ps.player.dict()]: [AttributeError] on a sheet without a player. *)
Definition player_dict (ps : PlayerStatSheet) : result (LeaguePlayer * PlayerStatSheet) :=
  match player ps with
  | Some p => Ok (p, ps)
  | None => Raise AttributeError
  end.

(** [pl.when(filter_players).then(gametime >= GAME_TIME * 2 * 60).otherwise(True)]:
    the comparison of an empty cell is empty, and [filter] drops the row. *)
Definition enough_gametime (filter_players : bool) (r : DisplayRow) : Prop :=
  if filter_players
  then match row_gametime r with
       | Some t => GAME_TIME * 2 * 60 ≤ t
       | None => False
       end
  else True.

(** [pl.when(filter_position is not None).then(gamePosition == filter_position)] *)
Definition at_position (filter_position : option Z) (r : DisplayRow) : Prop :=
  match filter_position with
  | Some pos => row_gamePosition r = pos
  | None => True
  end.

#[global] Instance enough_gametime_dec filter_players r :
  Decision (enough_gametime filter_players r).
Proof.
  unfold enough_gametime. destruct filter_players; [|apply _].
  destruct (row_gametime r); apply _.
Defined.

#[global] Instance at_position_dec filter_position r :
  Decision (at_position filter_position r).
Proof. unfold at_position. destruct filter_position; apply _. Defined.

(** The table [display_stats] shows and offers for download; [None] when the
    frame is empty and the function returns before showing anything. *)
Definition display_stats (statsheets : list PlayerStatSheet) (normalized : bool)
    (filter_players : bool) (filter_position : option Z)
  : result (option (list DisplayRow)) :=
  df_json ←? rmap player_dict statsheets;
  if decide (length df_json = 0%nat) then Ok None else
  gametime_floor ←? gametime_column ((λ pps, gametime (stats pps.2)) <$> df_json);
  let df := zip_with (λ pps, select_row normalized pps.1 pps.2) df_json gametime_floor in
  let df := filter (enough_gametime filter_players) df in
  let df := filter (at_position filter_position) df in
  Ok (Some df).
End Display.

(** *** Stat sheets of a match, and their sums *)






(** *** The selection of a division and a team *)

(** [st.selectbox(label, options)]: the option the user has picked, the first
    one until then; [None] when there is no option. *)
Definition selectbox {A} (options : list A) (picked : nat) : option A := options !! picked.

Section DivTeamSelect.
(** [div_select.teams], with [td.team] loaded: the link rows of a division. *)
Variable division_teams : LeagueDivision → list LeagueTeamRef.

(** The widgets are read in the order of the page: the division among
    [[None] + divisions], the box "Filter team", the team among the options
    the two tests leave. *)
Definition get_div_team_select (divisions : list LeagueDivision) (teams : list LeagueTeam)
    (picked_division : nat) (use_team_filter : bool) (picked_team : nat)
  : option LeagueDivision * option string :=
  let div_select := mjoin (selectbox (None :: (Some <$> divisions)) picked_division) in
  let team_name_options :=
    match div_select with
    | None => team_name <$> teams
    | Some _ => []
    end in
  let team_name_options :=
    match div_select with
    | Some d =>
      if use_team_filter then team_ref_name <$> division_teams d else []
    | None => []
    end in
  let team_name_select := selectbox team_name_options picked_team in
  (div_select, team_name_select).
End DivTeamSelect.

(* --------------------------------------------------------------------- *)
(** ** 6_Database_operations.py                                           *)
(* --------------------------------------------------------------------- *)

Module Db.

(** *** The uploaded workbook

    [pd.read_excel(excel, sheet)] raises [ValueError] when the workbook has
    no such sheet.  A cell that pandas reads as NaN (an empty cell, or
    ["---"] in the Players sheet) is [None].  Columns that the code passes on
    as text ([name], [initials], [Player]) hold text. *)

Record TeamsRow := {
  Teams_Division_name : option string;
  Teams_name : string;
  Teams_initials : string
}.

(** A row of the Players sheet: the [Player] column (the first one), the
    [nick*] columns, the [Team] column and the columns whose header contains
    ["team"], each in the order of the sheet. *)
Record PlayersRow := {
  Player : string;
  nick : list (option string);
  Team : option string;
  old_team : list (option string)
}.

(** A row of the Matches sheet.  [Date] is a day number; [Time] is the cell
    as [datetime.strptime(_, "%I:%M:%S %p")] reads it, in seconds after
    midnight, [None] when [strptime] raises [ValueError]. *)
Record MatchesRow := {
  Matches_id : Z;
  Matches_Division_name : option string;
  Matchday : option string;
  Game_number : Z;
  Team1_name : option string;
  Team2_name : option string;
  Date : Z;
  Time : option Z;
  Inverse : Z;
  Defwin : option Z;
  Add_red : option Z;
  Add_blue : option Z;
  Replay : option string
}.

Record UploadedFile := {
  Season : option (list string);
  Divisions : option (list string);
  Teams : option (list TeamsRow);
  Players : option (list PlayersRow);
  Matches : option (list MatchesRow)
}.

Definition read_excel {A} (sheet : option A) : result A :=
  match sheet with
  | Some df => Ok df
  | None => Raise ValueError
  end.

(** *** The database behind the prisma client

    The schema is not among the sources.  A table is the list of its rows in
    insertion order, with the last value its autoincrement id has taken;
    [create_many] appends, [find_many()] returns every row and
    [delete_many(where={})] removes the rows of the table it is called on.
    Constraints and referential actions of the schema are not modelled. *)

Record table (A : Type) := {
  rows : list A;
  last_id : Z
}.
Arguments rows {A} t.
Arguments last_id {A} t.

Record LeagueSeason := { season_id : Z; season_name : string }.
Record LeagueDivision := { division_id : Z; division_name : string; leagueSeasonId : Z }.
Record LeagueTeam := { team_id : Z; team_name : string; team_initials : string }.
Record LeagueTeamDivisions := { td_leagueTeamId : Z; td_leagueDivisionId : Z }.
Record LeaguePlayer := { player_id : Z; player_name : string; nicks : list string }.
Record LeaguePlayerTeams := { pt_leaguePlayerId : Z; pt_leagueTeamId : Z; active : bool }.
Record LeagueMatch := {
  match_id : Z;
  leagueDivisionId : Z;
  matchday : string;
  gameNumber : Z;
  date : Z * Z;
  title : string;
  defwin : Z;
  addRed : Z;
  addBlue : Z;
  replayURL : string
}.
Record LeagueMatchDetail := {
  leagueMatchId : Z;
  leagueTeamId : Z;
  startsRed : bool;
  home : bool
}.

Record Prisma := {
  leagueseason : table LeagueSeason;
  leaguedivision : table LeagueDivision;
  leagueteam : table LeagueTeam;
  leagueteamdivisions : table LeagueTeamDivisions;
  leagueplayer : table LeaguePlayer;
  leagueplayerteams : table LeaguePlayerTeams;
  leaguematch : table LeagueMatch;
  leaguematchdetail : table LeagueMatchDetail
}.

Definition set_leagueseason (f : table LeagueSeason → table LeagueSeason) (db : Prisma) :=
  let '(Build_Prisma s d t td p pt m md) := db in Build_Prisma (f s) d t td p pt m md.
Definition set_leaguedivision (f : table LeagueDivision → table LeagueDivision) (db : Prisma) :=
  let '(Build_Prisma s d t td p pt m md) := db in Build_Prisma s (f d) t td p pt m md.
Definition set_leagueteam (f : table LeagueTeam → table LeagueTeam) (db : Prisma) :=
  let '(Build_Prisma s d t td p pt m md) := db in Build_Prisma s d (f t) td p pt m md.
Definition set_leagueteamdivisions
    (f : table LeagueTeamDivisions → table LeagueTeamDivisions) (db : Prisma) :=
  let '(Build_Prisma s d t td p pt m md) := db in Build_Prisma s d t (f td) p pt m md.
Definition set_leagueplayer (f : table LeaguePlayer → table LeaguePlayer) (db : Prisma) :=
  let '(Build_Prisma s d t td p pt m md) := db in Build_Prisma s d t td (f p) pt m md.
Definition set_leagueplayerteams
    (f : table LeaguePlayerTeams → table LeaguePlayerTeams) (db : Prisma) :=
  let '(Build_Prisma s d t td p pt m md) := db in Build_Prisma s d t td p (f pt) m md.
Definition set_leaguematch (f : table LeagueMatch → table LeagueMatch) (db : Prisma) :=
  let '(Build_Prisma s d t td p pt m md) := db in Build_Prisma s d t td p pt (f m) md.
Definition set_leaguematchdetail
    (f : table LeagueMatchDetail → table LeagueMatchDetail) (db : Prisma) :=
  let '(Build_Prisma s d t td p pt m md) := db in Build_Prisma s d t td p pt m (f md).

(** [create_many(data=...)] on a table whose id is autoincremented: [mk i x]
    is the row made of the data [x] with the id [i]. *)
Fixpoint append_auto {A D} (mk : Z → D → A) (data : list D) (t : table A) : table A :=
  match data with
  | [] => t
  | x :: data' =>
    append_auto mk data'
      {| rows := rows t ++ [mk (last_id t + 1) x]; last_id := last_id t + 1 |}
  end.

(** [create_many(data=...)] with rows that come with all their columns. *)
Definition append_rows {A} (data : list A) (t : table A) : table A :=
  {| rows := rows t ++ data; last_id := last_id t |}.

(** [delete_many(where={})] *)
Definition delete_many {A} (t : table A) : table A :=
  {| rows := []; last_id := last_id t |}.

(** *** Code that uses the database and may raise *)

Definition db_action (A : Type) : Type := Prisma → Prisma * result A.

Definition ret {A} (a : A) : db_action A := λ db, (db, Ok a).

Definition bind {A B} (c : db_action A) (k : A → db_action B) : db_action B :=
  λ db, match c db with
        | (db', Ok a) => k a db'
        | (db', Raise e) => (db', Raise e)
        end.

Definition lift {A} (r : result A) : db_action A := λ db, (db, r).

(** [table.find_many()] *)
Definition find_many {A} (tbl : Prisma → table A) : db_action (list A) :=
  λ db, (db, Ok (rows (tbl db))).

(** A write to the database, returning the number of rows created. *)
Definition create_many (n : nat) (write : Prisma → Prisma) : db_action Z :=
  λ db, (write db, Ok (Z.of_nat n)).

Notation "x ←! c ; k" := (bind c (λ x, k))
  (at level 20, c at level 100, k at level 200, right associativity,
   format "x  ←!  c ;  '/' k").

(** [pd.DataFrame([dict(s) for s in rows]).loc[:, ["id", "name"]]
       .set_index("name").to_dict("dict")["id"]]:
    the frame of an empty list has no columns and [.loc] raises [KeyError];
    of two rows with one name the later one is kept. *)
Definition id_by_name {A} (id : A → Z) (name : A → string) (rows : list A)
  : result (gmap string Z) :=
  match rows with
  | [] => Raise KeyError
  | _ :: _ => Ok (foldl (λ d r, <[name r := id r]> d) ∅ rows)
  end.

(** [d[x] if x in d.keys() else -1]; NaN is the key of no row. *)
Definition id_or_sentinel (d : gmap string Z) (x : option string) : Z :=
  match x with
  | Some s => default (-1) (d !! s)
  | None => -1
  end.

(** *** Titles *)

(** A byte that continues a character of UTF-8, with its six bits. *)
Definition continuation (c : ascii) : option N :=
  let n := N_of_ascii c in
  if ((128 <=? n) && (n <? 192))%N then Some (n - 128)%N else None.

(** The characters of a text, as code points, read from its UTF-8 bytes;
    [None] on bytes that are not the UTF-8 of a text. *)
Fixpoint code_points (s : string) : option (list N) :=
  match s with
  | EmptyString => Some []
  | String c s1 =>
    let n := N_of_ascii c in
    if (n <? 128)%N then cons n <$> code_points s1
    else if (n <? 192)%N then None
    else if (n <? 224)%N then
      match s1 with
      | String c1 s2 =>
        x1 ← continuation c1;
        let cp := ((n - 192) * 64 + x1)%N in
        if (128 <=? cp)%N then cons cp <$> code_points s2 else None
      | _ => None
      end
    else if (n <? 240)%N then
      match s1 with
      | String c1 (String c2 s3) =>
        x1 ← continuation c1; x2 ← continuation c2;
        let cp := (((n - 224) * 64 + x1) * 64 + x2)%N in
        if ((2048 <=? cp) && negb ((55296 <=? cp) && (cp <? 57344)))%N
        then cons cp <$> code_points s3 else None
      | _ => None
      end
    else if (n <? 248)%N then
      match s1 with
      | String c1 (String c2 (String c3 s4)) =>
        x1 ← continuation c1; x2 ← continuation c2; x3 ← continuation c3;
        let cp := ((((n - 240) * 64 + x1) * 64 + x2) * 64 + x3)%N in
        if ((65536 <=? cp) && (cp <? 1114112))%N
        then cons cp <$> code_points s4 else None
      | _ => None
      end
    else None
  end.

(** The characters [str.isdigit] accepts: those whose Unicode property
    [Numeric_Type] is [Digit] or [Decimal] (the ranges of Unicode 14.0, the
    table of CPython 3.11): the ASCII digits, and among others the
    superscripts and the digits of other scripts. *)
Definition digit_ranges : list (N * N) :=
  ((λ r, (Z.to_N r.1, Z.to_N r.2)) <$>
   [
    (48, 57); (178, 179); (185, 185); (1632, 1641); (1776, 1785); (1984, 1993);
    (2406, 2415); (2534, 2543); (2662, 2671); (2790, 2799); (2918, 2927); (3046, 3055);
    (3174, 3183); (3302, 3311); (3430, 3439); (3558, 3567); (3664, 3673); (3792, 3801);
    (3872, 3881); (4160, 4169); (4240, 4249); (4969, 4977); (6112, 6121); (6160, 6169);
    (6470, 6479); (6608, 6618); (6784, 6793); (6800, 6809); (6992, 7001); (7088, 7097);
    (7232, 7241); (7248, 7257); (8304, 8304); (8308, 8313); (8320, 8329); (9312, 9320);
    (9332, 9340); (9352, 9360); (9450, 9450); (9461, 9469); (9471, 9471);
    (10102, 10110); (10112, 10120); (10122, 10130); (42528, 42537); (43216, 43225);
    (43264, 43273); (43472, 43481); (43504, 43513); (43600, 43609); (44016, 44025);
    (65296, 65305); (66720, 66729); (68160, 68163); (68912, 68921); (69216, 69224);
    (69714, 69722); (69734, 69743); (69872, 69881); (69942, 69951); (70096, 70105);
    (70384, 70393); (70736, 70745); (70864, 70873); (71248, 71257); (71360, 71369);
    (71472, 71481); (71904, 71913); (72016, 72025); (72784, 72793); (73040, 73049);
    (73120, 73129); (92768, 92777); (92864, 92873); (93008, 93017); (120782, 120831);
    (123200, 123209); (123632, 123641); (125264, 125273); (127232, 127242);
    (130032, 130041)
   ]).

Definition is_digit (cp : N) : bool :=
  existsb (λ r, (r.1 <=? cp)%N && (cp <=? r.2)%N) digit_ranges.

(** [md.isdigit()]: every character is a digit, and there is one at least. *)
Definition isdigit (s : string) : bool :=
  match code_points s with
  | Some (cp :: cps) => forallb is_digit (cp :: cps)
  | _ => false
  end.

(** [f"{n}"] for an integer. *)
Definition string_of_Z (n : Z) : string := NilZero.string_of_int (Z.to_int n).

(** [f"{x}"] for a cell of text of the frame that polars has given back: an
    empty cell is [None] there, and prints as ["None"]. *)
Definition format_cell (x : option string) : string := default "None" x.

(** [md.isdigit()] raises [AttributeError] when the cell is empty: [None] has
    no [isdigit]. *)
Definition get_title (row : MatchesRow) : result string :=
  match Matchday row with
  | None => Raise AttributeError
  | Some md =>
    let game_nb := Game_number row in
    let t1 := format_cell (Team1_name row) in
    let t2 := format_cell (Team2_name row) in
    if isdigit md then
      Ok ("MD " +:+ md +:+ " - " +:+ t1 +:+ " vs " +:+ t2)
    else if bool_decide (game_nb > 1) then
      Ok (md +:+ " " +:+ string_of_Z game_nb +:+ " - " +:+ t1 +:+ " vs " +:+ t2)
    else
      Ok (md +:+ " - " +:+ t1 +:+ " vs " +:+ t2)
  end.

(** *** The eight creation steps *)

(** [season_df["name"][0]]: [KeyError] on a sheet without rows. *)
Definition create_season (excel : UploadedFile) : db_action LeagueSeason :=
  season_df ←! lift (read_excel (Season excel));
  name ←! lift (match season_df with
                | [] => Raise KeyError
                | name :: _ => Ok name
                end);
  λ db,
    let season := {| season_id := last_id (leagueseason db) + 1; season_name := name |} in
    (set_leagueseason
       (append_auto (λ i name, {| season_id := i; season_name := name |}) [name]) db,
     Ok season).

Definition create_divisions (excel : UploadedFile) (season : LeagueSeason) : db_action Z :=
  divisions_df ←! lift (read_excel (Divisions excel));
  create_many (length divisions_df)
    (set_leaguedivision
       (append_auto (λ i name, {| division_id := i; division_name := name;
                                  leagueSeasonId := season_id season |})
                    divisions_df)).

Definition create_teams (excel : UploadedFile) : db_action Z :=
  teams_df ←! lift (read_excel (Teams excel));
  create_many (length teams_df)
    (set_leagueteam
       (append_auto (λ i r, {| team_id := i; team_name := Teams_name r;
                               team_initials := Teams_initials r |})
                    teams_df)).

(** The link a row of the Teams sheet yields, if any: both names are looked
    up, and the row is skipped when either id is the sentinel. *)
Definition team_division_link (teams_dict divisions_dict : gmap string Z) (r : TeamsRow)
  : option LeagueTeamDivisions :=
  let k := id_or_sentinel teams_dict (Some (Teams_name r)) in
  let v := id_or_sentinel divisions_dict (Teams_Division_name r) in
  if decide (k ≠ -1 ∧ v ≠ -1)
  then Some {| td_leagueTeamId := k; td_leagueDivisionId := v |}
  else None.

Definition create_team_divisions_relationship (excel : UploadedFile) : db_action Z :=
  teams_df ←! lift (read_excel (Teams excel));
  teams_class ←! find_many leagueteam;
  teams_dict ←! lift (id_by_name team_id team_name teams_class);
  divisions_class ←! find_many leaguedivision;
  divisions_dict ←! lift (id_by_name division_id division_name divisions_class);
  let data_list := omap (team_division_link teams_dict divisions_dict) teams_df in
  create_many (length data_list) (set_leagueteamdivisions (append_rows data_list)).

(** [df.T.to_dict("list")]: a dict keyed by player, in the order the keys
    first come, a later row of the same player replacing the earlier one. *)
Fixpoint odict_set {V} (k : string) (v : V) (d : list (string * V)) : list (string * V) :=
  match d with
  | [] => [(k, v)]
  | (k', v') :: d' => if decide (k' = k) then (k, v) :: d' else (k', v') :: odict_set k v d'
  end.

Definition create_players (excel : UploadedFile) : db_action Z :=
  players_df ←! lift (read_excel (Players excel));
  let players_nicks_records :=
    foldl (λ d r, odict_set (Player r) (nick r) d) [] players_df in
  let data_list :=
    (λ rec, (rec.1, elements (list_to_set (omap id rec.2) : gset string)))
      <$> players_nicks_records in
  create_many (length data_list)
    (set_leagueplayer
       (append_auto (λ i x, {| player_id := i; player_name := x.1; nicks := x.2 |})
                    data_list)).

(** The active link a row of the Players sheet yields, if any. *)
Definition active_link (players_dict teams_dict : gmap string Z) (r : PlayersRow)
  : option LeaguePlayerTeams :=
  let k := id_or_sentinel players_dict (Some (Player r)) in
  let v := id_or_sentinel teams_dict (Team r) in
  if decide (k ≠ -1 ∧ v ≠ -1)
  then Some {| pt_leaguePlayerId := k; pt_leagueTeamId := v; active := true |}
  else None.

(** The inactive link that column [col] of the old teams yields for a row. *)
Definition inactive_link (players_dict teams_dict : gmap string Z) (col : nat) (r : PlayersRow)
  : option LeaguePlayerTeams :=
  match old_team r !! col with
  | None => None
  | Some cell =>
    let k := id_or_sentinel players_dict (Some (Player r)) in
    let v := id_or_sentinel teams_dict cell in
    if decide (k ≠ -1 ∧ v ≠ -1)
    then Some {| pt_leaguePlayerId := k; pt_leagueTeamId := v; active := false |}
    else None
  end.

(** The number of columns whose header contains ["team"]. *)
Definition old_team_columns (players_df : list PlayersRow) : nat :=
  max_list ((λ r, length (old_team r)) <$> players_df).

Definition create_team_players_relationship (excel : UploadedFile) : db_action Z :=
  players_df ←! lift (read_excel (Players excel));
  players_class ←! find_many leagueplayer;
  players_dict ←! lift (id_by_name player_id player_name players_class);
  teams_class ←! find_many leagueteam;
  teams_dict ←! lift (id_by_name team_id team_name teams_class);
  let data_list_active := omap (active_link players_dict teams_dict) players_df in
  active_players ←!
    create_many (length data_list_active)
                (set_leagueplayerteams (append_rows data_list_active));
  let data_list_inactive :=
    mjoin ((λ col, omap (inactive_link players_dict teams_dict col) players_df)
             <$> seq 0 (old_team_columns players_df)) in
  inactive_players ←!
    create_many (length data_list_inactive)
                (set_leagueplayerteams (append_rows data_list_inactive));
  ret (active_players + inactive_players).

(** [pl.col(c) != "-"]: in the polars the page runs on (the one whose lists
    are read with [.arr.get]) an empty cell, which is null, differs from the
    text: the comparison is true of it. *)
Definition ne_sentinel (x : option string) : bool := bool_decide (x ≠ Some "-").

(** [(pl.col("Team1_name") != "-") & (pl.col("Team2_name") != "-")]; [filter]
    keeps the rows where it is true. *)
Definition row_is_kept (r : MatchesRow) : Prop :=
  ne_sentinel (Team1_name r) && ne_sentinel (Team2_name r) = true.

#[global] Instance row_is_kept_dec r : Decision (row_is_kept r).
Proof. unfold row_is_kept. apply _. Defined.

(** The rows of the Matches sheet that both [create_matches] and
    [create_matches_details] go on with. *)
Definition kept_rows (matches_df : list MatchesRow) : list MatchesRow :=
  filter row_is_kept matches_df.

(** [matches_df.merge(divisions_df, how="left", on="Division_name")]: a row
    for each division of that name, and one row without [Division_id] when
    there is none. *)
Definition merge_divisions (divisions : list LeagueDivision) (r : MatchesRow)
  : list (MatchesRow * option Z) :=
  match filter (λ d, Some (division_name d) = Matches_Division_name r) divisions with
  | [] => [(r, None)]
  | ds => (λ d, (r, Some (division_id d))) <$> ds
  end.

(** [matches_df["Title"] = matches_df.apply(get_title, axis=1)]: on a frame
    without row, [apply] gives a frame back and not a column, and the
    assignment raises [ValueError]. *)
Definition apply_get_title (matches_df : list MatchesRow) : result (list string) :=
  match matches_df with
  | [] => Raise ValueError
  | _ :: _ => rmap get_title matches_df
  end.

(** One element of [data_list] in [create_matches]: [int(NaN)] and an
    unreadable time both raise [ValueError]. *)
Definition match_create_input (x : MatchesRow * option Z) : result LeagueMatch :=
  Title ←? get_title x.1;
  Division_id ←? match x.2 with Some i => Ok i | None => Raise ValueError end;
  time ←? match Time x.1 with Some t => Ok t | None => Raise ValueError end;
  Ok {| match_id := Matches_id x.1;
        leagueDivisionId := Division_id;
        matchday := default "" (Matchday x.1);
        gameNumber := Game_number x.1;
        date := (Date x.1, time);
        title := Title;
        defwin := default 0 (Defwin x.1);
        addRed := default 0 (Add_red x.1);
        addBlue := default 0 (Add_blue x.1);
        replayURL := default "" (Replay x.1) |}.

Definition create_matches (excel : UploadedFile) : db_action Z :=
  matches_df ←! lift (read_excel (Matches excel));
  let matches_df := kept_rows matches_df in
  _ ←! lift (apply_get_title matches_df);
  divisions_class ←! find_many leaguedivision;
  _ ←! lift (match divisions_class with
             | [] => Raise KeyError
             | _ :: _ => Ok ()
             end);
  let matches_dict_records := matches_df ≫= merge_divisions divisions_class in
  data_list ←! lift (rmap match_create_input matches_dict_records);
  create_many (length data_list) (set_leaguematch (append_rows data_list)).

(** [matches_df.merge(matches_title_df, how="left", on="id")] *)
Definition merge_matches (matches : list LeagueMatch) (r : MatchesRow) : list MatchesRow :=
  match filter (λ m, match_id m = Matches_id r) matches with
  | [] => [r]
  | ms => (λ _, r) <$> ms
  end.

(** The details a record yields in [create_matches_details]. *)
Definition match_details (teams_dict : gmap string Z) (x : MatchesRow)
  : list LeagueMatchDetail :=
  let Team1 := id_or_sentinel teams_dict (Team1_name x) in
  let Team2 := id_or_sentinel teams_dict (Team2_name x) in
  (if decide (Team1 ≠ -1)
   then [{| leagueMatchId := Matches_id x; leagueTeamId := Team1;
            startsRed := bool_decide (Inverse x = 0); home := true |}]
   else [])
  ++
  (if decide (Team2 ≠ -1)
   then [{| leagueMatchId := Matches_id x; leagueTeamId := Team2;
            startsRed := negb (bool_decide (Inverse x = 0)); home := false |}]
   else []).

Definition create_matches_details (excel : UploadedFile) : db_action Z :=
  matches_df ←! lift (read_excel (Matches excel));
  let matches_df := kept_rows matches_df in
  _ ←! lift (apply_get_title matches_df);
  teams_class ←! find_many leagueteam;
  teams_dict ←! lift (id_by_name team_id team_name teams_class);
  matches_title_class ←! find_many leaguematch;
  _ ←! lift (match matches_title_class with
             | [] => Raise KeyError
             | _ :: _ => Ok ()
             end);
  let matches_dict_records := matches_df ≫= merge_matches matches_title_class in
  let data_list := matches_dict_records ≫= match_details teams_dict in
  create_many (length data_list) (set_leaguematchdetail (append_rows data_list)).

(** *** Clearing and the import *)

Definition clear_league_db (db : Prisma) : Prisma :=
  let db := set_leagueplayer delete_many db in
  let db := set_leagueteam delete_many db in
  let db := set_leagueplayerteams delete_many db in
  let db := set_leaguedivision delete_many db in
  let db := set_leaguematch delete_many db in
  let db := set_leaguematchdetail delete_many db in
  let db := set_leagueseason delete_many db in
  db.

(** What [treat_excel_file] leaves: the database, the messages given to
    [st.error] (each with the exception it prints) and the value returned. *)
Record Outcome := {
  db_after : Prisma;
  st_error : list (string * Exception);
  returned : bool
}.

(** The [except Exception] branch of a step. *)
Definition failed (message : string) (e : Exception) (db : Prisma) : Outcome :=
  {| db_after := clear_league_db db;
     st_error := [(message, e)];
     returned := false |}.

Definition treat_excel_file (db : Prisma) (excel_file : UploadedFile) : Outcome :=
  match create_season excel_file db with
  | (db, Raise e) => failed "Error while creating season. Clearing database." e db
  | (db, Ok season) =>
  match create_divisions excel_file season db with
  | (db, Raise e) => failed "Error while creating divisions. Clearing database." e db
  | (db, Ok _) =>
  match create_teams excel_file db with
  | (db, Raise e) => failed "Error while creating teams. Clearing database." e db
  | (db, Ok _) =>
  match create_team_divisions_relationship excel_file db with
  | (db, Raise e) =>
    failed "Error while creating team divisions relationship. Clearing database." e db
  | (db, Ok _) =>
  match create_players excel_file db with
  | (db, Raise e) => failed "Error while creating players. Clearing database." e db
  | (db, Ok _) =>
  match create_team_players_relationship excel_file db with
  | (db, Raise e) =>
    failed "Error while creating team players relationship. Clearing database." e db
  | (db, Ok _) =>
  match create_matches excel_file db with
  | (db, Raise e) => failed "Error while creating matches. Clearing database." e db
  | (db, Ok _) =>
  match create_matches_details excel_file db with
  | (db, Raise e) => failed "Error while creating match details. Clearing database." e db
  | (db, Ok _) => {| db_after := db; st_error := []; returned := true |}
  end end end end end end end end.

(** The eight steps of [treat_excel_file] in a row, without the handlers: the
    first exception ends the sequence. *)
Definition eight_steps (excel_file : UploadedFile) : db_action () :=
  season ←! create_season excel_file;
  _ ←! create_divisions excel_file season;
  _ ←! create_teams excel_file;
  _ ←! create_team_divisions_relationship excel_file;
  _ ←! create_players excel_file;
  _ ←! create_team_players_relationship excel_file;
  _ ←! create_matches excel_file;
  _ ←! create_matches_details excel_file;
  ret ().

(** *** Team names read back from a title

    [re.match(r".* - (.+) vs (.+)", m.title)] of [download_league_data_system],
    as the backtracking matcher runs it: [.] is any character but a line
    feed, [.*] and [.+] are greedy, so a longer repetition is tried before a
    shorter one, and the first way to match the whole pattern is the match.
    A piece of the pattern takes the matcher [k] of what follows it. *)

Definition dot (c : ascii) : bool := negb (Ascii.eqb c "010"%char).

(** A literal piece of the pattern. *)
Fixpoint lit {B} (l : string) (k : string → option B) (s : string) : option B :=
  match l with
  | EmptyString => k s
  | String c l' =>
    match s with
    | String c' s' => if Ascii.eqb c c' then lit l' k s' else None
    | EmptyString => None
    end
  end.

(** The greedy [.*]: the text taken by the repetition, with the result of [k]. *)
Fixpoint star {B} (k : string → option B) (s : string) : option (string * B) :=
  let longer :=
    match s with
    | String c s' =>
      if dot c then (λ pb, (String c pb.1, pb.2)) <$> star k s' else None
    | EmptyString => None
    end in
  match longer with
  | Some r => Some r
  | None => (λ b, (EmptyString, b)) <$> k s
  end.

(** The greedy [.+], a group of the pattern. *)
Definition plus {B} (k : string → option B) (s : string) : option (string * B) :=
  match s with
  | String c s' =>
    if dot c then (λ pb, (String c pb.1, pb.2)) <$> star k s' else None
  | EmptyString => None
  end.

(** The end of the pattern: [re.match] does not ask for the end of the text. *)
Definition pattern_end (s : string) : option unit := Some ().

(** What follows the first group, and what follows the hyphen. *)
Definition after_group1 : string → option (string * unit) :=
  lit " vs " (plus pattern_end).

Definition after_hyphen : string → option (string * (string * unit)) :=
  plus after_group1.

Definition re_match (s : string) : option (string * (string * (string * unit))) :=
  star (lit " - " after_hyphen) s.

(** [(m.group(1), m.group(2))]; [None.group] raises [AttributeError]. *)
Definition title_teams (title : string) : result (string * string) :=
  match re_match title with
  | Some m => Ok (m.2.1, m.2.2.1)
  | None => Raise AttributeError
  end.

(** [sub in s] *)
Fixpoint starts_with (sub s : string) : bool :=
  match sub with
  | EmptyString => true
  | String c sub' =>
    match s with
    | String c' s' => Ascii.eqb c c' && starts_with sub' s'
    | EmptyString => false
    end
  end.

Fixpoint contains (sub s : string) : bool :=
  starts_with sub s ||
  match s with
  | String _ s' => contains sub s'
  | EmptyString => false
  end.

(** No line feed in the text. *)
Fixpoint one_line (s : string) : bool :=
  match s with
  | EmptyString => true
  | String c s' => dot c && one_line s'
  end.

(** [k] fails on the text and on each of its suffixes. *)
Fixpoint fails_from {B} (k : string → option B) (s : string) : Prop :=
  k s = None ∧
  match s with
  | EmptyString => True
  | String _ s' => fails_from k s'
  end.

(** *** Names looked up among the rows inserted before *)

(** An exact match of a spreadsheet name among the rows of a table. *)
Definition known {A} (name : A → string) (table_rows : list A) (x : option string) : Prop :=
  ∃ r, r ∈ table_rows ∧ x = Some (name r).

(** *** The export of [download_league_data_system] *)

(** ["Inverse": not m.detail[0].startsRed if m.detail else None] *)
Definition export_inverse (detail : list LeagueMatchDetail) : option bool :=
  match detail with
  | [] => None
  | md :: _ => Some (negb (startsRed md))
  end.

(** A player as [get_players] returns it: with [p.teams], each link with the
    name of its team ([pt.team.name]) and its flag ([pt.active]). *)
Record PlayerWithTeams := {
  export_name : string;
  export_nicks : list string;
  export_teams : list (string * bool)
}.

(** A row of the exported Players sheet: the columns [nick1] to [nick6],
    [TEAM], [old team1] and [old team2]. *)
Record PlayersExportRow := {
  exported_Player : string;
  exported_nick : list (option string);
  exported_TEAM : option string;
  exported_old_team : list (option string)
}.

(** [[pl.col(c).arr.get(i - 1) for i in range(1, n + 1)]]: the element of
    each position, null past the end of the list. *)
Definition arr_get_columns {A} (n : nat) (l : list A) : list (option A) :=
  (λ i, l !! i) <$> seq 0 n.

Definition players_export_row (p : PlayerWithTeams) : PlayersExportRow :=
  let active_team := fst <$> filter (λ pt, pt.2 = true) (export_teams p) in
  let old_teams := fst <$> filter (λ pt, pt.2 = false) (export_teams p) in
  {| exported_Player := export_name p;
     exported_nick := arr_get_columns 6 (export_nicks p);
     exported_TEAM := active_team !! 0%nat;
     exported_old_team := arr_get_columns 2 old_teams |}.

(** *** Databases that only grow *)

(** Each table of [db'] begins with the rows of the same table of [db]. *)
Definition extends (db db' : Prisma) : Prop :=
  rows (leagueseason db) `prefix_of` rows (leagueseason db')
  ∧ rows (leaguedivision db) `prefix_of` rows (leaguedivision db')
  ∧ rows (leagueteam db) `prefix_of` rows (leagueteam db')
  ∧ rows (leagueteamdivisions db) `prefix_of` rows (leagueteamdivisions db')
  ∧ rows (leagueplayer db) `prefix_of` rows (leagueplayer db')
  ∧ rows (leagueplayerteams db) `prefix_of` rows (leagueplayerteams db')
  ∧ rows (leaguematch db) `prefix_of` rows (leaguematch db')
  ∧ rows (leaguematchdetail db) `prefix_of` rows (leaguematchdetail db').

(** *** Sample rows of a Matches sheet *)

Definition matches_row (id : Z) (md : string) (game_nb : Z) (t1 t2 : string) : MatchesRow :=
  {| Matches_id := id; Matches_Division_name := Some "D1"; Matchday := Some md;
     Game_number := game_nb; Team1_name := Some t1; Team2_name := Some t2;
     Date := 19500; Time := Some 72000; Inverse := 0;
     Defwin := None; Add_red := None; Add_blue := None; Replay := None |}.

Definition row_semifinal : MatchesRow := matches_row 7 "Semi" 2 "Red Team" "Blue - Team".
Definition row_vs : MatchesRow := matches_row 8 "1" 1 "A" "vs B".
Definition row_hyphen : MatchesRow := matches_row 10 "1" 1 "- X" "B".
Definition row_no_name : MatchesRow := matches_row 11 "1" 1 "" "B".
Definition row_two_lines : MatchesRow := matches_row 12 "1" 1 "A" ("B" +:+ String "010" "C").
Definition row_bye : MatchesRow := matches_row 9 "2" 1 "-" "A".

(** A row whose first team cell is empty. *)
Definition row_no_team : MatchesRow :=
  {| Matches_id := 3; Matches_Division_name := Some "D1"; Matchday := Some "2";
     Game_number := 1; Team1_name := None; Team2_name := Some "B";
     Date := 19500; Time := Some 72000; Inverse := 0;
     Defwin := None; Add_red := None; Add_blue := None; Replay := None |}.

(** *** Sample databases and workbooks *)

Definition empty_table {A} : table A := {| rows := []; last_id := 0 |}.

Definition empty_db : Prisma :=
  {| leagueseason := empty_table; leaguedivision := empty_table;
     leagueteam := empty_table; leagueteamdivisions := empty_table;
     leagueplayer := empty_table; leagueplayerteams := empty_table;
     leaguematch := empty_table; leaguematchdetail := empty_table |}.

(** A database with the season, division "D1" and teams "A" and "B". *)
Definition db_two_teams : Prisma :=
  {| leagueseason := {| rows := [{| season_id := 1; season_name := "S1" |}]; last_id := 1 |};
     leaguedivision :=
       {| rows := [{| division_id := 1; division_name := "D1"; leagueSeasonId := 1 |}];
          last_id := 1 |};
     leagueteam :=
       {| rows := [{| team_id := 1; team_name := "A"; team_initials := "AAA" |};
                   {| team_id := 2; team_name := "B"; team_initials := "BBB" |}];
          last_id := 2 |};
     leagueteamdivisions := empty_table;
     leagueplayer := empty_table; leagueplayerteams := empty_table;
     leaguematch := empty_table; leaguematchdetail := empty_table |}.

Definition workbook_bye : UploadedFile :=
  {| Season := Some ["S1"]; Divisions := Some ["D1"]; Teams := Some [];
     Players := Some []; Matches := Some [row_bye] |}.


Definition teams_row (division team initials : string) : TeamsRow :=
  {| Teams_Division_name := Some division; Teams_name := team; Teams_initials := initials |}.

(** A Teams sheet with a team that is known in a known division, a team that
    is not known, and a division that is not known. *)
Definition workbook_links : UploadedFile :=
  {| Season := Some ["S1"]; Divisions := Some ["D1"];
     Teams := Some [teams_row "D1" "A" "AAA"; teams_row "D1" "C" "CCC";
                    teams_row "D9" "B" "BBB"];
     Players := Some []; Matches := Some [] |}.

(** A workbook whose Divisions sheet has no row. *)
Definition workbook_no_divisions : UploadedFile :=
  {| Season := Some ["S1"]; Divisions := Some [];
     Teams := Some [teams_row "D1" "A" "AAA"];
     Players := Some []; Matches := Some [] |}.

(** The database after the first three steps on [workbook_no_divisions]. *)
Definition db_no_division : Prisma :=
  {| leagueseason := {| rows := [{| season_id := 1; season_name := "S1" |}]; last_id := 1 |};
     leaguedivision := empty_table;
     leagueteam :=
       {| rows := [{| team_id := 1; team_name := "A"; team_initials := "AAA" |}];
          last_id := 1 |};
     leagueteamdivisions := empty_table;
     leagueplayer := empty_table; leagueplayerteams := empty_table;
     leaguematch := empty_table; leaguematchdetail := empty_table |}.

(** A workbook without a Players sheet. *)
Definition workbook_no_players : UploadedFile :=
  {| Season := Some ["S1"]; Divisions := Some ["D1"];
     Teams := Some [teams_row "D1" "A" "AAA"];
     Players := None; Matches := Some [] |}.

(** A league of one division, two teams, two players and one match. *)
Definition workbook_league : UploadedFile :=
  {| Season := Some ["S1"]; Divisions := Some ["D1"];
     Teams := Some [teams_row "D1" "A" "AAA"; teams_row "D1" "B" "BBB"];
     Players := Some [{| Player := "Ann"; nick := [Some "ann"; None]; Team := Some "A";
                         old_team := [Some "B"; None] |};
                      {| Player := "Bob"; nick := [Some "bob"; Some "bob"]; Team := Some "B";
                         old_team := [None; None] |}];
     Matches := Some [matches_row 1 "1" 1 "A" "B"] |}.

(** A database that holds an earlier season: a division, a team, a player
    and a match of their own. *)
Definition db_archive : Prisma :=
  {| leagueseason := {| rows := [{| season_id := 1; season_name := "S0" |}]; last_id := 1 |};
     leaguedivision :=
       {| rows := [{| division_id := 1; division_name := "D0"; leagueSeasonId := 1 |}];
          last_id := 1 |};
     leagueteam :=
       {| rows := [{| team_id := 1; team_name := "Z"; team_initials := "ZZZ" |}];
          last_id := 1 |};
     leagueteamdivisions :=
       {| rows := [{| td_leagueTeamId := 1; td_leagueDivisionId := 1 |}]; last_id := 0 |};
     leagueplayer :=
       {| rows := [{| player_id := 1; player_name := "Old"; nicks := ["old"] |}];
          last_id := 1 |};
     leagueplayerteams :=
       {| rows := [{| pt_leaguePlayerId := 1; pt_leagueTeamId := 1; active := true |}];
          last_id := 0 |};
     leaguematch :=
       {| rows := [{| match_id := 100; leagueDivisionId := 1; matchday := "1";
                      gameNumber := 1; date := (19000, 72000); title := "MD 1 - Z vs Y";
                      defwin := 0; addRed := 0; addBlue := 0; replayURL := "" |}];
          last_id := 0 |};
     leaguematchdetail :=
       {| rows := [{| leagueMatchId := 100; leagueTeamId := 1; startsRed := true;
                      home := true |}];
          last_id := 0 |} |}.

(** The database after the first five steps on [workbook_league]. *)
Definition db_league_players : Prisma :=
  {| leagueseason := {| rows := [{| season_id := 1; season_name := "S1" |}]; last_id := 1 |};
     leaguedivision :=
       {| rows := [{| division_id := 1; division_name := "D1"; leagueSeasonId := 1 |}];
          last_id := 1 |};
     leagueteam :=
       {| rows := [{| team_id := 1; team_name := "A"; team_initials := "AAA" |};
                   {| team_id := 2; team_name := "B"; team_initials := "BBB" |}];
          last_id := 2 |};
     leagueteamdivisions :=
       {| rows := [{| td_leagueTeamId := 1; td_leagueDivisionId := 1 |};
                   {| td_leagueTeamId := 2; td_leagueDivisionId := 1 |}];
          last_id := 0 |};
     leagueplayer :=
       {| rows := [{| player_id := 1; player_name := "Ann"; nicks := ["ann"] |};
                   {| player_id := 2; player_name := "Bob"; nicks := ["bob"] |}];
          last_id := 2 |};
     leagueplayerteams := empty_table;
     leaguematch := empty_table; leaguematchdetail := empty_table |}.

End Db.

(* --------------------------------------------------------------------- *)
(** ** Sample data of the statistics page                                 *)
(* --------------------------------------------------------------------- *)

Definition division_one : LeagueDivision := {| division_id := 1; division_name := "D1" |}.

Definition counts (n_goals : Z) (n_gametime : float) : PlayerStats :=
  {| goals := n_goals; assists := 0; saves := 0; ownGoals := 0;
     passesAttempted := 0; passesSuccessful := 0; shots := n_goals; shotsTarget := n_goals;
     touches := 0; kicks := 0; secondaryAssists := 0; tertiaryAssists := 0;
     reboundDribbles := 0; duels := 0; interceptions := 0; clears := 0;
     averagePosX := 0%float; gametime := VFloat n_gametime; gamePosition := 1 |}.

Definition line_of (name team : string) (n_goals : Z) (n_gametime : float) : PeriodLine :=
  {| line_player_name := name; line_team := {| team_ref_name := team |};
     line_stats := counts n_goals n_gametime; line_cs := 0 |}.

Definition detail_of (t1 t2 : string) : list LeagueMatchDetail :=
  [{| detail_team := {| team_ref_name := t1 |}; startsRed := true; home := true |};
   {| detail_team := {| team_ref_name := t2 |}; startsRed := false; home := false |}].

Definition sample_match (id : Z) (label : string) (lines : list (list PeriodLine))
  : LeagueMatch :=
  {| match_id := id; leagueDivisionId := 1; matchday := label;
     title := "MD " +:+ label +:+ " - A vs B"; detail := detail_of "A" "B";
     periods := imap (λ n l, {| period_id := 10 * id + Z.of_nat n; period_lines := l |}) lines |}.

(** Five matches of the division with the labels 3, 3, 1, 2, 2 in this order;
    the last one is not played. *)
Definition sample_matches : list LeagueMatch :=
  [sample_match 1 "3" [[line_of "ann" "A" 1 600; line_of "ghost" "B" 0 600]];
   sample_match 2 "3" [[line_of "ann" "A" 2 900; line_of "bob" "B" 1 900]];
   sample_match 3 "1" [[line_of "bob" "B" 0 600]];
   sample_match 4 "2" [[line_of "ann" "A" 0 600]];
   sample_match 5 "2" []].

Definition ann : LeaguePlayer := {| player_id := 1; player_name := "ann"; nicks := ["annie"] |}.


(** The sum of the two sheets of "ann" in the first two sample matches. *)
Definition ann_total : PlayerStatSheet :=
  {| player := Some ann; sheet_player_name := "ann";
     sheet_team := {| team_ref_name := "A" |}; period_nb := 1;
     stats := counts 3 1500; cs := 0 |}.



(** A division whose only match, of the first matchday, is not played. *)
Definition sample_not_started : list LeagueMatch := [sample_match 6 "1" []].

(* ===================================================================== *)
(** * Part II: theorems                                                   *)
(* ===================================================================== *)

(** ** Sequences, dictionaries, minimum and maximum *)

Lemma get_unique_order_elem (l : list string) x :
  x ∈ get_unique_order l ↔ x ∈ l.
Proof.
  induction l as [|y l IH]; simpl; [done|].
  rewrite !elem_of_cons, list_elem_of_filter, IH.
  destruct (decide (x = y)); tauto.
Qed.

Lemma get_unique_order_NoDup (l : list string) : NoDup (get_unique_order l).
Proof.
  induction l as [|y l IH]; simpl; [constructor|].
  constructor.
  - rewrite list_elem_of_filter. tauto.
  - by apply NoDup_filter.
Qed.

(** The spec's example: labels [3,3,1,2,2] in first-seen order. *)
Example get_unique_order_example :
  get_unique_order ["3"; "3"; "1"; "2"; "2"] = ["3"; "1"; "2"].
Proof. reflexivity. Qed.

Lemma dict_of_enumerate_lookup (l : list string) (n : Z) (d : gmap string Z) (v : string) :
  NoDup l →
  foldl (λ d iv, <[iv.2 := iv.1]> d) d (enumerate_from n l) !! v =
  match list_find (λ x, x = v) l with
  | Some p => Some (n + Z.of_nat p.1)
  | None => d !! v
  end.
Proof.
  revert n d. induction l as [|x l IH]; intros n d Hnd; simpl; [done|].
  apply NoDup_cons in Hnd as [Hx Hnd]. rewrite IH by done.
  destruct (decide (x = v)) as [->|Hne].
  - assert (list_find (λ x, x = v) l = None) as ->.
    { apply list_find_None, Forall_forall. intros y Hy ->. done. }
    simpl. rewrite lookup_insert_eq. f_equal. lia.
  - destruct (list_find (λ x, x = v) l) as [[k y]|]; simpl.
    + f_equal. lia.
    + by rewrite lookup_insert_ne.
Qed.

(** The dictionary of the code holds, for each label, the index the spec
    assigns to it. *)
Lemma md_dict_of_lookup (matches_div : list LeagueMatch) (label : string) :
  md_dict_of matches_div !! label = assigned_index matches_div label.
Proof.
  unfold md_dict_of, dict_of_enumerate, enumerate, assigned_index.
  rewrite dict_of_enumerate_lookup by apply get_unique_order_NoDup.
  destruct (list_find _ _) as [[k y]|]; simpl; [f_equal; lia|apply lookup_empty].
Qed.

Lemma assigned_index_Some (matches_div : list LeagueMatch) (label : string) (i : Z) :
  assigned_index matches_div label = Some i ↔
  0 ≤ i ∧ get_unique_order (matchday <$> matches_div) !! Z.to_nat i = Some label.
Proof.
  unfold assigned_index. split.
  - intros H. apply fmap_Some in H as [[k y] [H ->]].
    apply list_find_Some in H as (Hk & -> & _). simpl.
    rewrite Nat2Z.id. split; [lia|done].
  - intros [Hi Hl].
    destruct (list_find_elem_of (λ v, v = label)
                (get_unique_order (matchday <$> matches_div)) label) as [[k y] Hf].
    { by eapply list_elem_of_lookup_2. } { done. }
    rewrite Hf. simpl. f_equal.
    apply list_find_Some in Hf as (Hk & -> & _).
    pose proof (get_unique_order_NoDup (matchday <$> matches_div)) as Hnd.
    rewrite (NoDup_lookup _ _ _ _ Hnd Hk Hl). lia.
Qed.

Lemma assigned_index_is_Some (matches_div : list LeagueMatch) (m : LeagueMatch) :
  m ∈ matches_div → is_Some (assigned_index matches_div (matchday m)).
Proof.
  intros Hm. unfold assigned_index. apply fmap_is_Some.
  eapply list_find_elem_of; [|done].
  apply get_unique_order_elem, list_elem_of_fmap. eauto.
Qed.

Lemma assigned_index_bound (matches_div : list LeagueMatch) (label : string) (i : Z) :
  assigned_index matches_div label = Some i →
  0 ≤ i < Z.of_nat (length (get_unique_order (matchday <$> matches_div))).
Proof.
  intros [Hi Hl]%assigned_index_Some. apply lookup_lt_Some in Hl. lia.
Qed.

Lemma foldl_max_spec (l : list Z) (x : Z) :
  foldl Z.max x l ∈ x :: l ∧ ∀ y, y ∈ x :: l → y ≤ foldl Z.max x l.
Proof.
  revert x. induction l as [|z l IH]; intros x; simpl.
  - split; [left|]. intros y ->%list_elem_of_singleton. lia.
  - destruct (IH (Z.max x z)) as [Hin Hle]. split.
    + apply elem_of_cons in Hin as [Heq|Hin]; [|by do 2 right].
      rewrite Heq. destruct (Z.max_spec x z) as [[_ ->]|[_ ->]]; [right|]; left.
    + intros y Hy. apply elem_of_cons in Hy as [->|Hy].
      * specialize (Hle (Z.max x z) ltac:(left)). lia.
      * apply elem_of_cons in Hy as [->|Hy].
        -- specialize (Hle (Z.max x z) ltac:(left)). lia.
        -- apply Hle. by right.
Qed.

Lemma foldl_min_spec (l : list Z) (x : Z) :
  foldl Z.min x l ∈ x :: l ∧ ∀ y, y ∈ x :: l → foldl Z.min x l ≤ y.
Proof.
  revert x. induction l as [|z l IH]; intros x; simpl.
  - split; [left|]. intros y ->%list_elem_of_singleton. lia.
  - destruct (IH (Z.min x z)) as [Hin Hle]. split.
    + apply elem_of_cons in Hin as [Heq|Hin]; [|by do 2 right].
      rewrite Heq. destruct (Z.min_spec x z) as [[_ ->]|[_ ->]]; [|right]; left.
    + intros y Hy. apply elem_of_cons in Hy as [->|Hy].
      * specialize (Hle (Z.min x z) ltac:(left)). lia.
      * apply elem_of_cons in Hy as [->|Hy].
        -- specialize (Hle (Z.min x z) ltac:(left)). lia.
        -- apply Hle. by right.
Qed.

Lemma py_max_spec (l : list Z) :
  l ≠ [] → ∃ r, py_max l = Ok r ∧ r ∈ l ∧ ∀ y, y ∈ l → y ≤ r.
Proof.
  destruct l as [|x l]; [done|]. intros _. exists (foldl Z.max x l).
  split; [done|]. apply foldl_max_spec.
Qed.

Lemma py_min_spec (l : list Z) :
  l ≠ [] → ∃ r, py_min l = Ok r ∧ r ∈ l ∧ ∀ y, y ∈ l → r ≤ y.
Proof.
  destruct l as [|x l]; [done|]. intros _. exists (foldl Z.min x l).
  split; [done|]. apply foldl_min_spec.
Qed.

Lemma elem_of_py_set (l : list Z) (x : Z) : x ∈ py_set l ↔ x ∈ l.
Proof. unfold py_set. by rewrite elem_of_elements, elem_of_list_to_set. Qed.

Lemma elem_of_values (d : gmap string Z) (x : Z) :
  x ∈ values d ↔ ∃ k, d !! k = Some x.
Proof.
  unfold values. rewrite list_elem_of_fmap. split.
  - intros [[k y] [-> Hk]]. exists k. by apply elem_of_map_to_list.
  - intros [k Hk]. exists (k, x). split; [done|]. by apply elem_of_map_to_list.
Qed.

(** Reading the index of each match of a list never raises when every label
    is a key of the dictionary. *)
Lemma rmap_Ok {A B} (f : A → result B) (l : list A) (ys : list B) :
  rmap f l = Ok ys → Forall2 (λ x y, f x = Ok y) l ys.
Proof.
  revert ys. induction l as [|x l IH]; simpl; intros ys.
  - intros [= <-]. constructor.
  - destruct (f x) as [y|e] eqn:Hx; simpl; [|done].
    destruct (rmap f l) as [ys'|e] eqn:Hl; simpl; [|done].
    intros [= <-]. constructor; [done|]. by apply IH.
Qed.

Lemma rmap_is_Ok {A B} (f : A → result B) (l : list A) :
  (∃ ys, rmap f l = Ok ys) ↔ ∀ x, x ∈ l → ∃ y, f x = Ok y.
Proof.
  induction l as [|x l IH]; simpl.
  - split; [by intros _ x ?%not_elem_of_nil|by exists []].
  - split.
    + intros [ys Hys]. destruct (f x) as [y|e] eqn:Hx; simpl in Hys; [|done].
      destruct (rmap f l) as [ys'|e] eqn:Hl; simpl in Hys; [|done].
      intros x' [->|Hx']%elem_of_cons; [by exists y|]. apply IH; [by exists ys'|done].
    + intros Hall. destruct (Hall x) as [y ->]; [left|]. simpl.
      destruct (proj2 IH) as [ys ->]; [intros x' Hx'; apply Hall; by right|].
      by eexists.
Qed.

Lemma rmap_getitem (d : gmap string Z) (l : list LeagueMatch) :
  Forall (λ m, is_Some (d !! matchday m)) l →
  ∃ vs, rmap (λ m, getitem d (matchday m)) l = Ok vs
        ∧ Forall2 (λ m v, d !! matchday m = Some v) l vs.
Proof.
  induction 1 as [|m l [v Hv] _ (vs & Hvs & IH)]; simpl.
  - by exists [].
  - exists (v :: vs). unfold getitem at 1. rewrite Hv. simpl. rewrite Hvs. simpl.
    split; [done|]. by constructor.
Qed.

Lemma md_dict_of_is_Some (matches_div : list LeagueMatch) :
  Forall (λ m, is_Some (md_dict_of matches_div !! matchday m)) matches_div.
Proof.
  apply Forall_forall. intros m Hm. rewrite md_dict_of_lookup.
  by apply assigned_index_is_Some.
Qed.

Lemma md_dict_of_size (matches_div : list LeagueMatch) :
  size (md_dict_of matches_div) = 0%nat ↔ matches_div = [].
Proof.
  split.
  - intros Hs%map_size_empty_iff. destruct matches_div as [|m l]; [done|].
    destruct (assigned_index_is_Some (m :: l) m ltac:(left)) as [i Hi].
    rewrite <- md_dict_of_lookup, Hs, lookup_empty in Hi. done.
  - by intros ->.
Qed.

(** ** Matchday cutoff and match filtering *)

Lemma values_md_dict_not_empty (matches_div : list LeagueMatch) :
  matches_div ≠ [] → values (md_dict_of matches_div) ≠ [].
Proof.
  destruct matches_div as [|m l]; [done|]. intros _ Hnil.
  destruct (assigned_index_is_Some (m :: l) m ltac:(left)) as [i Hi].
  assert (i ∈ values (md_dict_of (m :: l))) as Hiv.
  { apply elem_of_values. exists (matchday m). by rewrite md_dict_of_lookup. }
  rewrite Hnil in Hiv. by apply not_elem_of_nil in Hiv.
Qed.

(** The cutoff is computed for every list of matches and every selection:
    no lookup of [md_dict] fails, and [max] and [min] get a sequence that is
    not empty. *)
Lemma get_max_matchday_stats_total (matches : list LeagueMatch)
    (division : option LeagueDivision) :
  ∃ r, get_max_matchday_stats matches division = Ok r ∧ 0 ≤ r.
Proof.
  destruct division as [d|]; [|by exists 1].
  unfold get_max_matchday_stats. set (matches_div := matches_of_division matches d).
  case_decide as Hsize; [by exists 0|]. rewrite md_dict_of_size in Hsize.
  destruct (rmap_getitem (md_dict_of matches_div)
              (filter (λ m, is_match_played m = false) matches_div))
    as (vs & -> & Hvs).
  { apply Forall_forall. intros m' [_ Hm']%list_elem_of_filter.
    by apply (proj1 (Forall_forall _ _) (md_dict_of_is_Some matches_div)). }
  simpl. case_decide as Hlen.
  - destruct (py_max_spec (values (md_dict_of matches_div)))
      as (r & -> & [label Hl]%elem_of_values & _);
      [by apply values_md_dict_not_empty|].
    exists r. split; [done|]. rewrite md_dict_of_lookup in Hl.
    apply assigned_index_bound in Hl. lia.
  - destruct (py_min_spec (py_set vs)) as (r & -> & _).
    { destruct vs as [|v vs]; [done|]. intros E.
      assert (v ∈ py_set (v :: vs)) as Hv by (apply elem_of_py_set; left).
      rewrite E in Hv. by apply not_elem_of_nil in Hv. }
    simpl. eexists. split; [done|]. lia.
Qed.


Lemma team_in_detail_true (t : string) (m : LeagueMatch) :
  team_in_detail t m = true ↔ team_appears (Some t) m.
Proof.
  unfold team_in_detail, team_appears. rewrite existsb_exists, list_elem_of_fmap.
  split.
  - intros (md & Hmd%list_elem_of_In & Heq%bool_decide_eq_true). by exists md.
  - intros (md & -> & Hmd). exists md. split; [by apply list_elem_of_In|].
    by apply bool_decide_eq_true.
Qed.

Lemma filter_matches_loop_spec (matches_div : list LeagueMatch)
    (team_name : option string) (a b : Z) (l : list LeagueMatch) :
  (∀ m, m ∈ l → m ∈ matches_div) →
  filter_matches_loop (md_dict_of matches_div) team_name (a, b) l =
  Ok (filter (λ m, in_matchday_range matches_div a b m ∧ team_appears team_name m) l).
Proof.
  induction l as [|m l IH]; intros Hsub; [done|].
  simpl. rewrite IH by (intros m' Hm'; apply Hsub; by right). clear IH.
  destruct (assigned_index_is_Some matches_div m) as [i Hi]; [apply Hsub; left|].
  unfold getitem. rewrite md_dict_of_lookup, Hi. simpl.
  assert (in_matchday_range matches_div a b m ↔ a ≤ i ≤ b) as Hrange
    by (unfold in_matchday_range; by rewrite Hi).
  rewrite filter_cons.
  destruct (bool_decide (i < a) || bool_decide (i > b)) eqn:Hout.
  - rewrite decide_False; [done|]. rewrite Hrange.
    apply orb_true_iff in Hout as [H%bool_decide_eq_true|H%bool_decide_eq_true]; lia.
  - apply orb_false_iff in Hout as [H1%bool_decide_eq_false H2%bool_decide_eq_false].
    simpl. destruct team_name as [t|].
    + destruct (team_in_detail t m) eqn:Ht.
      * rewrite decide_True; [done|]. rewrite Hrange. split; [lia|].
        by apply team_in_detail_true.
      * rewrite decide_False; [done|]. intros [_ Hc%team_in_detail_true]. congruence.
    + rewrite decide_True; [done|]. rewrite Hrange. split; [lia|done].
Qed.

(** C3: with a division selected, [filter_matches] returns, in their order,
    exactly the matches of that division whose assigned matchday index lies
    in [[a, b]] and, when a team name is given, among whose team-details the
    name appears; without a division it returns its input. *)
Theorem filter_matches_keeps (matches : list LeagueMatch) (team_name : option string)
    (division : option LeagueDivision) (a b : Z) :
  filter_matches matches team_name division (a, b) =
  Ok (match division with
      | None => matches
      | Some d => filter (kept_by_filter matches team_name d a b) matches
      end).
Proof.
  destruct division as [d|]; [|done].
  unfold filter_matches. rewrite filter_matches_loop_spec by done. f_equal.
  set (P := λ m, in_matchday_range (matches_of_division matches d) a b m
                 ∧ team_appears team_name m).
  unfold matches_of_division. rewrite (list_filter_filter P).
  apply list_filter_iff. intros m. unfold P, kept_by_filter. tauto.
Qed.

(** ** Roster resolution *)

Lemma elem_of_foldl_app {A B} (f : B → list A) (l : list B) (acc : list A) (x : A) :
  x ∈ foldl (λ acc b, acc ++ f b) acc l ↔ x ∈ acc ∨ ∃ b, b ∈ l ∧ x ∈ f b.
Proof.
  revert acc. induction l as [|b l IH]; intros acc; simpl.
  - split; [by left|]. intros [H|(b & Hb & _)]; [done|]. by apply not_elem_of_nil in Hb.
  - rewrite IH, elem_of_app. split.
    + intros [[H|H]|(b' & Hb' & H)].
      * by left.
      * right. exists b. split; [left|done].
      * right. exists b'. split; [by right|done].
    + intros [H|(b' & Hb' & H)]; [by do 2 left|].
      apply elem_of_cons in Hb' as [->|Hb']; [left; by right|].
      right. by exists b'.
Qed.



Section GetStatsFacts.
Variable get_statsheet_list : list LeaguePlayer → LeagueMatch → list PlayerStatSheet.
Variable sum_sheets : list PlayerStatSheet → list PlayerStatSheet.

End GetStatsFacts.

(** ** Display transform *)

(** C5: with normalization, [treat_stat] is the value divided by the ratio
    of the observed time to [GAME_TIME * 2 * 60] seconds, the two divisions
    being those of binary64 numbers, each the quotient that IEEE 754 rounds
    to nearest; without it, the value itself, whatever the observed time. *)
Theorem treat_stat_normalization (GAME_TIME : Z) (stat gametime : value) :
  treat_stat GAME_TIME stat true gametime
  = VFloat (to_float stat / (to_float gametime / float_of_Z (GAME_TIME * 2 * 60)))%float
  ∧ (∀ f, treat_stat GAME_TIME stat true gametime = VFloat f →
          Prim2SF f
          = SFdiv prec emax (Prim2SF (to_float stat))
              (SFdiv prec emax (Prim2SF (to_float gametime))
                 (Prim2SF (float_of_Z (GAME_TIME * 2 * 60)))))
  ∧ treat_stat GAME_TIME stat false gametime = stat.
Proof.
  split; [reflexivity|]. split; [|reflexivity].
  intros f [= <-]. by rewrite !div_spec.
Qed.

(** Four goals in 1800 seconds, for halves of ten minutes: 4 / (1800 / 1200);
    without normalization the four goals, also with no observed time. *)
Lemma treat_stat_normalization_witness :
  treat_stat 10 (VInt 4) true (VInt 1800) = VFloat 0x1.5555555555555p+1%float
  ∧ treat_stat 10 (VInt 4) false (VInt 0) = VInt 4.
Proof.
  destruct (treat_stat_normalization 10 (VInt 4) (VInt 1800)) as [-> _].
  destruct (treat_stat_normalization 10 (VInt 4) (VInt 0)) as (_ & _ & ->).
  split; [vm_compute; reflexivity|reflexivity].
Defined.

(** With normalization and no observed time the quotient is an infinity. *)
Example treat_stat_no_gametime :
  treat_stat 10 (VInt 4) true (VInt 0) = VFloat infinity.
Proof. vm_compute. reflexivity. Qed.

(** The least integer of [Int64] is cast to itself. *)
Example float_of_Z_least : float_of_Z (- 2 ^ 63) = (-0x1p+63)%float.
Proof. vm_compute. reflexivity. Qed.

Example floor_cast_int64_sample :
  floor_cast_int64 0x1.773p+10 = Ok (Some 1500)
  ∧ floor_cast_int64 (-0x1p-1) = Ok (Some (-1))
  ∧ floor_cast_int64 nan = Ok None
  ∧ floor_cast_int64 infinity = Raise ComputeError
  ∧ floor_cast_int64 0x1p+63 = Raise ComputeError.
Proof. repeat split; vm_compute; reflexivity. Qed.

(** The sheets that all have a player, with their players. *)
Lemma players_of_sheets (statsheets : list PlayerStatSheet) :
  Forall (λ ps, is_Some (player ps)) statsheets
  ↔ ∃ players_list, Forall2 (λ ps p, player ps = Some p) statsheets players_list.
Proof.
  split.
  - induction 1 as [|ps l [p Hp] _ [players_list IH]]; [by exists []|].
    exists (p :: players_list). by constructor.
  - intros [players_list H]. induction H; constructor; [by eexists|done].
Qed.


Lemma rmap_player_dict (statsheets : list PlayerStatSheet) (players_list : list LeaguePlayer) :
  Forall2 (λ ps p, player ps = Some p) statsheets players_list →
  rmap player_dict statsheets = Ok (zip players_list statsheets).
Proof.
  induction 1 as [|ps p l players_list Hp _ IH]; [done|].
  simpl. unfold player_dict at 1. rewrite Hp. simpl. by rewrite IH.
Qed.

Lemma rmap_player_dict_raises (statsheets : list PlayerStatSheet) :
  (∃ ps, ps ∈ statsheets ∧ player ps = None) →
  rmap player_dict statsheets = Raise AttributeError.
Proof.
  intros (ps & Hps & Hnone).
  induction statsheets as [|ps' l IH]; [by apply not_elem_of_nil in Hps|].
  simpl. unfold player_dict at 1. destruct (player ps') as [p|] eqn:Hp; [|done].
  simpl. apply elem_of_cons in Hps as [->|Hps]; [congruence|]. by rewrite IH.
Qed.

(** [display_stats] on sheets that all have a player. *)
Lemma display_stats_players (GAME_TIME : Z) (statsheets : list PlayerStatSheet)
    (players_list : list LeaguePlayer) (normalized filter_players : bool)
    (filter_position : option Z) :
  Forall2 (λ ps p, player ps = Some p) statsheets players_list →
  display_stats GAME_TIME statsheets normalized filter_players filter_position
  = if decide (statsheets = []) then Ok None else
    gametime_floor ←? gametime_column ((λ ps, gametime (stats ps)) <$> statsheets);
    Ok (Some (filter (at_position filter_position)
                (filter (enough_gametime GAME_TIME filter_players)
                   (zip_with (λ pps, select_row GAME_TIME normalized pps.1 pps.2)
                             (zip players_list statsheets) gametime_floor)))).
Proof.
  intros Hplayers. unfold display_stats. rewrite (rmap_player_dict _ _ Hplayers). simpl.
  pose proof (Forall2_length _ _ _ Hplayers) as Hlen.
  destruct statsheets as [|ps l]; [by destruct players_list|].
  destruct players_list as [|p players_list]; [done|].
  rewrite decide_False by done. rewrite decide_False by done.
  replace ((λ pps : LeaguePlayer * PlayerStatSheet, gametime (stats pps.2))
             <$> zip (p :: players_list) (ps :: l))
    with ((λ ps, gametime (stats ps)) <$> (ps :: l)); [done|].
  rewrite <- (snd_zip (p :: players_list) (ps :: l)) at 1 by (simpl in *; lia).
  by rewrite <- list_fmap_compose.
Qed.

Lemma gametime_column_Ok (cells : list value) (times : list (option Z)) :
  gametime_column cells = Ok times →
  Forall2 (λ v t, floor_cast_int64 (to_float v) = Ok t) cells times.
Proof.
  unfold gametime_column. destruct (forallb is_int cells); [done|]. apply rmap_Ok.
Qed.

Lemma gametime_column_raises (cells : list value) (e : Exception) :
  gametime_column cells = Raise e → e = InvalidOperationError ∨ e = ComputeError.
Proof.
  unfold gametime_column. destruct (forallb is_int cells); [intros [= <-]; by left|].
  intros He. right. induction cells as [|v cells IH]; [done|]. simpl in He.
  unfold floor_cast_int64 in He at 1.
  destruct (Prim2SF (to_float v)); simpl in He; try congruence.
  all: try case_decide; simpl in He; try congruence.
  all: destruct (rmap _ cells); [done|]; apply IH; simpl in He; congruence.
Qed.




(** ** The sample division *)

(** The spec's example of the indices: labels 3, 3, 1, 2, 2. *)
Example assigned_index_sample :
  assigned_index sample_matches <$> (matchday <$> sample_matches)
  = [Some 0; Some 0; Some 1; Some 2; Some 2].
Proof. reflexivity. Qed.


Lemma filter_matches_keeps_witness :
  filter_matches sample_matches (Some "A") (Some division_one) (0, 1)
  = Ok (take 3 sample_matches)
  ∧ filter_matches sample_matches (Some "C") (Some division_one) (0, 2) = Ok []
  ∧ filter_matches sample_matches (Some "C") None (0, 0) = Ok sample_matches.
Proof.
  rewrite !filter_matches_keeps. repeat split; vm_compute; reflexivity.
Defined.



Example display_stats_sample :
  (λ r, (row_name r, row_goals r, row_passSuccess r))
    <$> default [] (match display_stats 10 [ann_total] true false None with
                    | Ok table => table
                    | Raise _ => None
                    end)
  = [("ann", VFloat 0x1.3333333333333p+1%float, VFloat nan)].
Proof. vm_compute. reflexivity. Qed.

(** ** Further properties of the statistics page *)

(** X1: [md_dict] is the inverse of [md_list]: a label is a key exactly when
    a match of the division bears it, its value is its position in
    [md_list], every position of [md_list] is the value of its label, and two
    matches have the same index exactly when they have the same label. *)
Theorem md_dict_inverts_md_list (matches_div : list LeagueMatch) :
  let md_list := get_unique_order (matchday <$> matches_div) in
  let md_dict := md_dict_of matches_div in
  (∀ v i, md_dict !! v = Some i ↔ 0 ≤ i ∧ md_list !! Z.to_nat i = Some v)
  ∧ (∀ v, is_Some (md_dict !! v) ↔ ∃ m, m ∈ matches_div ∧ matchday m = v)
  ∧ (∀ n v, md_list !! n = Some v → md_dict !! v = Some (Z.of_nat n))
  ∧ (∀ m1 m2 i, md_dict !! matchday m1 = Some i →
       (md_dict !! matchday m2 = Some i ↔ matchday m1 = matchday m2)).
Proof.
  intros md_list md_dict.
  assert (∀ v i, md_dict !! v = Some i ↔ 0 ≤ i ∧ md_list !! Z.to_nat i = Some v) as Hinv.
  { intros v i. unfold md_dict. rewrite md_dict_of_lookup. apply assigned_index_Some. }
  split; [done|]. split; [|split].
  - intros v. split.
    + intros [i [_ Hi]%Hinv].
      apply list_elem_of_lookup_2, get_unique_order_elem, list_elem_of_fmap in Hi
        as (m & -> & Hm).
      by exists m.
    + intros (m & Hm & <-). unfold md_dict. rewrite md_dict_of_lookup.
      by apply assigned_index_is_Some.
  - intros n v Hn. apply Hinv. rewrite Nat2Z.id. split; [lia|done].
  - intros m1 m2 i [Hi H1]%Hinv. split.
    + intros [_ H2]%Hinv. congruence.
    + intros <-. by apply Hinv.
Qed.

(** X2: for a division with a match, the cutoff is a position of [md_list],
    so the default [(0, matchday_max)] of the slider is among its options
    [range(len(matchdays_options_div))]. *)
Theorem get_max_matchday_stats_in_range (matches : list LeagueMatch) (d : LeagueDivision) :
  matches_of_division matches d ≠ [] →
  ∃ r, get_max_matchday_stats matches (Some d) = Ok r
       ∧ 0 ≤ r
           < Z.of_nat (length (get_unique_order
                                 (matchday <$> matches_of_division matches d))).
Proof.
  intros Hne. unfold get_max_matchday_stats.
  set (matches_div := matches_of_division matches d) in *.
  rewrite decide_False by by rewrite md_dict_of_size.
  destruct (rmap_getitem (md_dict_of matches_div)
              (filter (λ m, is_match_played m = false) matches_div))
    as (vs & -> & Hvs).
  { apply Forall_forall. intros m' [_ Hm']%list_elem_of_filter.
    by apply (proj1 (Forall_forall _ _) (md_dict_of_is_Some matches_div)). }
  simpl. case_decide as Hlen.
  - destruct (py_max_spec (values (md_dict_of matches_div)))
      as (r & -> & [label Hl]%elem_of_values & _);
      [by apply values_md_dict_not_empty|].
    exists r. split; [done|]. rewrite md_dict_of_lookup in Hl.
    by apply assigned_index_bound in Hl.
  - destruct (py_min_spec (py_set vs)) as (k & -> & Hk & _).
    { destruct vs as [|v vs]; [done|]. intros E.
      assert (v ∈ py_set (v :: vs)) as Hv by (apply elem_of_py_set; left).
      rewrite E in Hv. by apply not_elem_of_nil in Hv. }
    simpl. eexists. split; [done|].
    rewrite elem_of_py_set in Hk. apply list_elem_of_lookup in Hk as [j Hj].
    destruct (Forall2_lookup_r _ _ _ _ _ Hvs Hj) as (m & _ & Hd).
    rewrite md_dict_of_lookup in Hd. apply assigned_index_bound in Hd. lia.
Qed.

Lemma get_max_matchday_stats_in_range_witness :
  ∃ r, get_max_matchday_stats sample_matches (Some division_one) = Ok r ∧ 0 ≤ r < 3.
Proof.
  apply (get_max_matchday_stats_in_range sample_matches division_one). discriminate.
Defined.

(** When a match of the division is not played, the cutoff is one less than
    the smallest index of such a match, or 0. *)
Lemma get_max_matchday_stats_not_played (matches : list LeagueMatch) (d : LeagueDivision)
    (m : LeagueMatch) :
  let matches_div := matches_of_division matches d in
  m ∈ matches_div → is_match_played m = false →
  ∃ k, get_max_matchday_stats matches (Some d) = Ok (Z.max 0 (k - 1))
       ∧ ∀ m' i, m' ∈ matches_div → is_match_played m' = false →
                 assigned_index matches_div (matchday m') = Some i → k ≤ i.
Proof.
  intros matches_div Hm Hnp. unfold get_max_matchday_stats. fold matches_div.
  rewrite decide_False; last first.
  { rewrite md_dict_of_size. intros E. rewrite E in Hm. by apply not_elem_of_nil in Hm. }
  destruct (rmap_getitem (md_dict_of matches_div)
              (filter (λ m, is_match_played m = false) matches_div))
    as (vs & -> & Hvs).
  { apply Forall_forall. intros m' [_ Hm']%list_elem_of_filter.
    by apply (proj1 (Forall_forall _ _) (md_dict_of_is_Some matches_div)). }
  simpl.
  assert (∀ m' i, m' ∈ matches_div → is_match_played m' = false →
            assigned_index matches_div (matchday m') = Some i → i ∈ vs) as Hin.
  { intros m' i Hm' Hnp' Hi.
    assert (m' ∈ filter (λ m, is_match_played m = false) matches_div) as Hf
      by by apply list_elem_of_filter.
    apply list_elem_of_lookup in Hf as [j Hj].
    destruct (Forall2_lookup_l _ _ _ _ _ Hvs Hj) as (v & Hv & Hd).
    rewrite md_dict_of_lookup, Hi in Hd. injection Hd as ->.
    by eapply list_elem_of_lookup_2. }
  destruct (assigned_index_is_Some matches_div m Hm) as [i Hi].
  pose proof (Hin m i Hm Hnp Hi) as Hivs.
  rewrite decide_False by (destruct vs; [by apply not_elem_of_nil in Hivs|done]).
  destruct (py_min_spec (py_set vs)) as (k & -> & _ & Hle).
  { intros E. apply elem_of_py_set in Hivs. rewrite E in Hivs.
    by apply not_elem_of_nil in Hivs. }
  exists k. split; [done|]. intros m' i' Hm' Hnp' Hi'.
  apply Hle, elem_of_py_set. by eapply Hin.
Qed.

(** What [filter_matches] returns for a division is made of matches of the
    division, in the range, with the team. *)
Lemma filter_matches_elem (matches : list LeagueMatch) (team_name : option string)
    (d : LeagueDivision) (a b : Z) (match_list_filter : list LeagueMatch) (m : LeagueMatch) :
  filter_matches matches team_name (Some d) (a, b) = Ok match_list_filter →
  m ∈ match_list_filter ↔
  m ∈ matches_of_division matches d
  ∧ in_matchday_range (matches_of_division matches d) a b m
  ∧ team_appears team_name m.
Proof.
  unfold filter_matches. rewrite filter_matches_loop_spec by done.
  intros [= <-]. rewrite list_elem_of_filter. tauto.
Qed.

(** X3: with the default range [(0, matchday_max)] of the slider, the matches
    [filter_matches] returns are played, but for matches of the first
    matchday when that one is not complete. *)
Theorem default_range_is_played (matches : list LeagueMatch) (team_name : option string)
    (d : LeagueDivision) (matchday_max : Z) (match_list_filter : list LeagueMatch)
    (m : LeagueMatch) :
  get_max_matchday_stats matches (Some d) = Ok matchday_max →
  filter_matches matches team_name (Some d) (0, matchday_max) = Ok match_list_filter →
  m ∈ match_list_filter → is_match_played m = false →
  matchday_max = 0
  ∧ assigned_index (matches_of_division matches d) (matchday m) = Some 0.
Proof.
  intros Hmax Hfilter Hm Hnp.
  apply (filter_matches_elem _ _ _ _ _ _ m Hfilter) in Hm as (Hmd & Hrange & _).
  destruct (get_max_matchday_stats_not_played matches d m Hmd Hnp) as (k & Hk & Hmin).
  rewrite Hk in Hmax. injection Hmax as <-.
  unfold in_matchday_range in Hrange.
  destruct (assigned_index _ (matchday m)) as [i|] eqn:Hi; [|done].
  specialize (Hmin m i Hmd Hnp Hi).
  assert (i = 0) as -> by lia. split; [lia|done].
Qed.

Lemma default_range_is_played_witness :
  0 = 0 ∧ assigned_index (matches_of_division sample_not_started division_one) "1" = Some 0.
Proof.
  apply (default_range_is_played sample_not_started None division_one 0
           sample_not_started (sample_match 6 "1" []));
    [reflexivity | reflexivity | left | reflexivity].
Defined.

Section PipelineFacts.
Variable get_statsheet_list : list LeaguePlayer → LeagueMatch → list PlayerStatSheet.
Variable sum_sheets : list PlayerStatSheet → list PlayerStatSheet.

(** X4: the admin view lists exactly the sheets without a player of the
    filtered matches, each with the match it was made from; it has no line,
    and the page no "Missing stats" section, exactly when every sheet of
    every filtered match has a player. *)
Theorem show_missing_stats_lines (matches_filter : list LeagueMatch)
    (players_list : list LeaguePlayer) :
  let empty_sheets := show_missing_stats get_statsheet_list matches_filter players_list in
  (∀ ps m, (ps, m) ∈ empty_sheets ↔
           m ∈ matches_filter ∧ ps ∈ get_statsheet_list players_list m ∧ player ps = None)
  ∧ (empty_sheets = [] ↔
     ∀ m ps, m ∈ matches_filter → ps ∈ get_statsheet_list players_list m →
             is_Some (player ps)).
Proof.
  intros empty_sheets.
  assert (∀ ps m, (ps, m) ∈ empty_sheets ↔
            m ∈ matches_filter ∧ ps ∈ get_statsheet_list players_list m ∧ player ps = None)
    as Hlines.
  { intros ps m. unfold empty_sheets, show_missing_stats.
    rewrite (elem_of_foldl_app
               (λ m, (λ ps, (ps, m)) <$> filter (λ ps, player ps = None)
                                               (get_statsheet_list players_list m))).
    split.
    - intros [H|(m' & Hm' & H)]; [by apply not_elem_of_nil in H|].
      apply list_elem_of_fmap in H as (ps' & [= -> ->] & [Hnone Hps]%list_elem_of_filter).
      done.
    - intros (Hm & Hps & Hnone). right. exists m. split; [done|].
      apply list_elem_of_fmap. exists ps. split; [done|]. by apply list_elem_of_filter. }
  split; [done|]. split.
  - intros Hnil m ps Hm Hps. destruct (player ps) as [p|] eqn:Hp; [by eexists|].
    assert ((ps, m) ∈ empty_sheets) as Hin by by apply Hlines.
    rewrite Hnil in Hin. by apply not_elem_of_nil in Hin.
  - intros Hall. destruct empty_sheets as [|[ps m] l] eqn:E; [done|].
    assert ((ps, m) ∈ (ps, m) :: l) as Hin by left.
    apply Hlines in Hin as (Hm & Hps & Hnone).
    destruct (Hall m ps Hm Hps) as [p Hp]. congruence.
Qed.

(** X5: on what [get_stats] returns, [display_stats] never raises for want
    of a player: each sheet left by the roster filter has the player that
    [ps.player.dict()] needs.  It returns before showing a table when
    [get_stats] has returned no sheet; otherwise it raises exactly when the
    column of the playing times cannot be floored, with the exception of the
    column, and shows a table when it can. *)
Theorem display_stats_of_get_stats (GAME_TIME : Z) (matches_filter : list LeagueMatch)
    (teams : list LeagueTeam) (players_list : list LeaguePlayer)
    (div_select : option LeagueDivision) (team_name_select : option string)
    (normalized filter_players : bool) (filter_position : option Z) :
  let stats_players := get_stats get_statsheet_list sum_sheets matches_filter teams
                         players_list div_select team_name_select in
  let shown := display_stats GAME_TIME stats_players normalized filter_players
                 filter_position in
  let column := gametime_column ((λ ps, gametime (stats ps)) <$> stats_players) in
  shown ≠ Raise AttributeError
  ∧ (stats_players = [] → shown = Ok None)
  ∧ (stats_players ≠ [] →
     (∀ e, shown = Raise e ↔ column = Raise e)
     ∧ (∀ times, column = Ok times → ∃ rows, shown = Ok (Some rows))).
Proof.
  intros stats_players shown column.
  assert (Forall (λ ps, is_Some (player ps)) stats_players) as Hall.
  { apply Forall_forall. intros ps [Hin _]%list_elem_of_filter. unfold in_roster in Hin.
    by destruct (player ps). }
  apply players_of_sheets in Hall as [sheet_players Hplayers].
  unfold shown, column. clear shown column.
  rewrite (display_stats_players _ _ _ _ _ _ Hplayers).
  split; [|split].
  - case_decide; [done|]. destruct (gametime_column _) as [times|e] eqn:Hcol; [done|].
    simpl. by destruct (gametime_column_raises _ _ Hcol) as [-> | ->].
  - intros Hnil. by rewrite decide_True.
  - intros Hne. rewrite decide_False by done. split.
    + intros e. destruct (gametime_column _); simpl; split; (discriminate || by intros [= ->]).
    + intros times Hcol. rewrite Hcol. by eexists.
Qed.
End PipelineFacts.

Lemma filter_all {A} (P : A → Prop) `{∀ x, Decision (P x)} (l : list A) :
  (∀ x, P x) → filter P l = l.
Proof.
  intros HP. induction l as [|x l IH]; [done|].
  rewrite filter_cons_True by done. by rewrite IH.
Qed.

(** X6: [display_stats] raises [AttributeError] as soon as a sheet has no
    player, whatever the playing times; on sheets that all have one and
    whose playing times can be floored, and with both filters off, the table
    has one row for each sheet, in the order of the sheets, with the floor
    of its playing time. *)
Theorem display_stats_rows (GAME_TIME : Z) (statsheets : list PlayerStatSheet)
    (normalized filter_players : bool) (filter_position : option Z) :
  ((∃ ps, ps ∈ statsheets ∧ player ps = None) →
   display_stats GAME_TIME statsheets normalized filter_players filter_position
   = Raise AttributeError)
  ∧ (∀ times,
       Forall (λ ps, is_Some (player ps)) statsheets → statsheets ≠ [] →
       gametime_column ((λ ps, gametime (stats ps)) <$> statsheets) = Ok times →
       ∃ rows, display_stats GAME_TIME statsheets normalized false None = Ok (Some rows)
         ∧ length rows = length statsheets
         ∧ ∀ i ps, statsheets !! i = Some ps →
             ∃ p t, player ps = Some p
                    ∧ floor_cast_int64 (to_float (gametime (stats ps))) = Ok t
                    ∧ rows !! i = Some (select_row GAME_TIME normalized p ps t)).
Proof.
  split.
  - intros Hnone. unfold display_stats. by rewrite (rmap_player_dict_raises _ Hnone).
  - intros times [players_list Hplayers]%players_of_sheets Hne Htimes.
    rewrite (display_stats_players _ _ _ _ _ _ Hplayers), decide_False, Htimes by done.
    simpl. eexists. split; [done|]. rewrite !filter_all by done.
    apply gametime_column_Ok in Htimes.
    pose proof (Forall2_length _ _ _ Hplayers) as Hlen1.
    pose proof (Forall2_length _ _ _ Htimes) as Hlen2. rewrite length_fmap in Hlen2.
    split; [rewrite length_zip_with, length_zip; lia|].
    intros i ps Hps.
    destruct (Forall2_lookup_l _ _ _ _ _ Hplayers Hps) as (p & Hp & Hplayer).
    assert (((λ ps, gametime (stats ps)) <$> statsheets) !! i = Some (gametime (stats ps)))
      as Hcell by by rewrite list_lookup_fmap, Hps.
    destruct (Forall2_lookup_l _ _ _ _ _ Htimes Hcell) as (t & Ht & Hfloor).
    exists p, t. repeat (split; [done|]). apply lookup_zip_with_Some.
    exists (p, ps), t. split; [done|]. split; [|done]. by apply lookup_zip_Some.
Qed.

Lemma display_stats_rows_witness :
  ∃ rows, display_stats 10 [ann_total] true false None = Ok (Some rows)
    ∧ length rows = 1%nat
    ∧ ∀ i ps, [ann_total] !! i = Some ps →
        ∃ p t, player ps = Some p
               ∧ floor_cast_int64 (to_float (gametime (stats ps))) = Ok t
               ∧ rows !! i = Some (select_row 10 true p ps t).
Proof.
  apply (proj2 (display_stats_rows 10 [ann_total] true false None) [Some 1500]).
  - repeat constructor. by eexists.
  - discriminate.
  - vm_compute. reflexivity.
Defined.

(** X7: [get_div_team_select] returns a team name only with a division
    selected and the box "Filter team" ticked, and then a team of that
    division; the names of all the teams, listed when no division is
    selected, are never offered: the result does not depend on [teams]. *)
Theorem get_div_team_select_team (division_teams : LeagueDivision → list LeagueTeamRef)
    (divisions : list LeagueDivision) (teams : list LeagueTeam)
    (picked_division : nat) (use_team_filter : bool) (picked_team : nat) :
  let selection := get_div_team_select division_teams divisions teams
                     picked_division use_team_filter picked_team in
  (∀ d, selection.1 = Some d → d ∈ divisions)
  ∧ (∀ t, selection.2 = Some t →
       ∃ d, selection.1 = Some d ∧ use_team_filter = true
            ∧ t ∈ team_ref_name <$> division_teams d)
  ∧ (selection.1 = None → selection.2 = None)
  ∧ selection = get_div_team_select division_teams divisions []
                  picked_division use_team_filter picked_team.
Proof.
  unfold get_div_team_select, selectbox. simpl.
  destruct picked_division as [|n]; simpl.
  - repeat split; try done; intros t Ht; by rewrite lookup_nil in Ht.
  - rewrite list_lookup_fmap. destruct (divisions !! n) as [d|] eqn:Hd; simpl.
    + split; [|split; [|split]]; try done.
      * intros d' [= <-]. by eapply list_elem_of_lookup_2.
      * intros t Ht. exists d. split; [done|]. destruct use_team_filter.
        -- split; [done|]. by eapply list_elem_of_lookup_2.
        -- by rewrite lookup_nil in Ht.
    + repeat split; try done; intros t Ht; by rewrite lookup_nil in Ht.
Qed.

(* --------------------------------------------------------------------- *)
(** ** Database console                                                   *)
(* --------------------------------------------------------------------- *)

Module DbFacts.
Import Db.

(** *** The pattern of the export on the titles of the import *)

Lemma fails_from_here {B} (k : string → option B) (s : string) :
  fails_from k s → k s = None.
Proof. destruct s; simpl; tauto. Qed.

Lemma star_fails {B} (k : string → option B) (s : string) :
  fails_from k s → star k s = None.
Proof.
  induction s as [|c s IH]; simpl; intros [Hk Hs].
  - by rewrite Hk.
  - rewrite (IH Hs), Hk. by destruct (dot c).
Qed.

(** A greedy repetition stops at once when what follows matches here and
    nowhere further on. *)
Lemma star_stops {B} (k : string → option B) (s : string) (b : B) :
  k s = Some b →
  match s with EmptyString => True | String _ s' => fails_from k s' end →
  star k s = Some (EmptyString, b).
Proof.
  intros Hk Hs. destruct s as [|c s]; simpl; rewrite Hk; [done|].
  rewrite (star_fails _ _ Hs). by destruct (dot c).
Qed.

(** A greedy repetition runs over a prefix without line feed when the rest
    can still be matched. *)
Lemma star_extend {B} (k : string → option B) (p s q : string) (b : B) :
  one_line p = true → star k s = Some (q, b) → star k (p +:+ s) = Some (p +:+ q, b).
Proof.
  intros Hp Hs. induction p as [|c p IH]; simpl in *; [done|].
  apply andb_true_iff in Hp as [-> Hp]. by rewrite (IH Hp).
Qed.

Lemma plus_fails {B} (k : string → option B) (s : string) :
  fails_from k s → fails_from (plus k) s.
Proof.
  induction s as [|c s IH]; simpl; intros [Hk Hs]; [done|].
  split; [|by apply IH]. rewrite (star_fails _ _ Hs). by destruct (dot c).
Qed.

Lemma lit_cons {B} (c c' : ascii) (l s : string) (k : string → option B) :
  lit (String c l) k (String c' s) = if Ascii.eqb c c' then lit l k s else None.
Proof. done. Qed.

Lemma lit_fails_here {B} (l : string) (k : string → option B) (s : string) :
  fails_from k s → lit l k s = None.
Proof.
  revert s. induction l as [|c l IH]; intros s Hs; simpl.
  - by apply fails_from_here.
  - destruct s as [|c' s]; [done|]. destruct (Ascii.eqb c c'); [|done].
    apply IH. by destruct Hs.
Qed.

Lemma lit_fails {B} (l : string) (k : string → option B) (s : string) :
  fails_from k s → fails_from (lit l k) s.
Proof.
  induction s as [|c s IH]; intros Hs.
  - split; [by apply lit_fails_here|done].
  - split; [by apply lit_fails_here|]. apply IH. by destruct Hs.
Qed.

Lemma lit_not_starts_with {B} (l : string) (k : string → option B) (s : string) :
  starts_with l s = false → lit l k s = None.
Proof.
  revert s. induction l as [|c l IH]; intros s; simpl; [done|].
  destruct s as [|c' s]; [done|]. destruct (Ascii.eqb c c'); [|done]. apply IH.
Qed.

(** A literal that occurs nowhere in the text matches nowhere in it. *)
Lemma lit_not_contains {B} (l : string) (k : string → option B) (s : string) :
  contains l s = false → fails_from (lit l k) s.
Proof.
  induction s as [|c s IH]; simpl; intros [H1 H2]%orb_false_iff.
  - split; [by apply lit_not_starts_with|done].
  - split; [by apply lit_not_starts_with|by apply IH].
Qed.

Lemma plus_pattern_end (s : string) :
  s ≠ EmptyString → one_line s = true → plus pattern_end s = Some (s, ()).
Proof.
  assert (∀ s, one_line s = true → star pattern_end s = Some (s, ())) as Hstar.
  { clear. induction s as [|c s IH]; simpl; [done|].
    intros [-> Hs]%andb_true_iff. by rewrite (IH Hs). }
  destruct s as [|c s]; [done|]. simpl. intros _ [-> Hs]%andb_true_iff.
  by rewrite (Hstar _ Hs).
Qed.

Lemma one_line_app (s t : string) :
  one_line s = true → one_line t = true → one_line (s +:+ t) = true.
Proof.
  induction s as [|c s IH]; simpl; [done|].
  intros [-> Hs]%andb_true_iff Ht. by apply IH.
Qed.

Lemma one_line_string_of_Z (n : Z) : one_line (string_of_Z n) = true.
Proof.
  assert (∀ d, one_line (NilEmpty.string_of_uint d) = true) as Huint
    by (induction d; simpl; done).
  assert (∀ d, one_line (NilZero.string_of_uint d) = true) as Hzero
    by (intros []; simpl; try done; apply Huint).
  unfold string_of_Z, NilZero.string_of_int.
  destruct (Z.to_int n); simpl; apply Hzero.
Qed.

Lemma append_empty_r (s : string) : s +:+ EmptyString = s.
Proof.
  induction s as [|c s IH]; [done|].
  change (String c (s +:+ EmptyString) = String c s). by f_equal.
Qed.

Section TitlePattern.
Variables t1 t2 : string.
Hypothesis t1_one_line : one_line t1 = true.
Hypothesis t2_one_line : one_line t2 = true.
Hypothesis t1_not_empty : t1 ≠ EmptyString.
Hypothesis t2_not_empty : t2 ≠ EmptyString.
Hypothesis t1_separator : contains " - " (" " +:+ t1) = false.
Hypothesis t2_separator : contains " vs " (" " +:+ t2) = false.

Lemma vs_fails_in_t2 : fails_from after_group1 (" " +:+ t2).
Proof. by apply lit_not_contains. Qed.

Lemma vs_fails_after_v : fails_from after_group1 ("s " +:+ t2).
Proof. split; [done|]. apply vs_fails_in_t2. Qed.

Lemma group2_found : star after_group1 (" vs " +:+ t2) = Some (EmptyString, (t2, ())).
Proof.
  apply star_stops.
  - simpl. by apply plus_pattern_end.
  - split; [done|]. apply vs_fails_after_v.
Qed.

Lemma group1_found : after_hyphen (t1 +:+ " vs " +:+ t2) = Some (t1, (t2, ())).
Proof.
  unfold after_hyphen. destruct t1 as [|c t1']; [done|].
  simpl in t1_one_line. apply andb_true_iff in t1_one_line as [Hc Ht].
  simpl. rewrite Hc.
  rewrite (star_extend _ _ _ _ _ Ht group2_found), append_empty_r. done.
Qed.

(** A hyphen astride the end of the first name starts no match. *)
Lemma hyphen_fails_astride_1 (c : ascii) :
  lit " - " after_hyphen (String c (" vs " +:+ t2)) = None.
Proof. rewrite lit_cons. by destruct (Ascii.eqb " " c). Qed.

Lemma hyphen_fails_astride_2 (c c2 : ascii) :
  lit " - " after_hyphen (String c (String c2 (" vs " +:+ t2))) = None.
Proof.
  rewrite lit_cons. destruct (Ascii.eqb " " c); [|done].
  rewrite lit_cons. destruct (Ascii.eqb "-" c2); [|done].
  change ((λ pb, (String "v" pb.1, pb.2)) <$> star after_group1 ("s " +:+ t2) = None).
  by rewrite (star_fails _ _ vs_fails_after_v).
Qed.

(** No hyphen further on starts another match. *)
Lemma hyphen_fails_later (y : string) :
  contains " - " y = false →
  fails_from (lit " - " after_hyphen) (y +:+ " vs " +:+ t2).
Proof.
  induction y as [|c y IH].
  - intros _. split; [done|]. split; [done|]. split; [done|].
    apply lit_fails, plus_fails, vs_fails_in_t2.
  - intros Hy.
    assert (starts_with " - " (String c y) = false ∧ contains " - " y = false)
      as [Hc Hy'] by (apply orb_false_iff; exact Hy).
    split; [|by apply IH].
    destruct y as [|c2 [|c3 y]].
    + apply hyphen_fails_astride_1.
    + apply hyphen_fails_astride_2.
    + apply lit_not_starts_with. exact Hc.
Qed.

Lemma teams_found :
  star (lit " - " after_hyphen) (" - " +:+ t1 +:+ " vs " +:+ t2)
  = Some (EmptyString, (t1, (t2, ()))).
Proof.
  apply star_stops.
  - simpl. apply group1_found.
  - split; [done|]. apply (hyphen_fails_later (" " +:+ t1)). done.
Qed.

(** Whatever one-line text comes before the hyphen, the groups are the two
    team names. *)
Lemma re_match_title (before : string) :
  one_line before = true →
  re_match (before +:+ " - " +:+ t1 +:+ " vs " +:+ t2)
  = Some (before, (t1, (t2, ()))).
Proof.
  intros Hb. pose proof (star_extend _ _ _ _ _ Hb teams_found) as Hm.
  rewrite append_empty_r in Hm. exact Hm.
Qed.
End TitlePattern.

Lemma append_assoc_r (s t u : string) : (s +:+ t) +:+ u = s +:+ t +:+ u.
Proof.
  induction s as [|c s IH]; [done|].
  change (String c ((s +:+ t) +:+ u) = String c (s +:+ t +:+ u)). by f_equal.
Qed.

(** C9, as amended: the pattern of the export gives back the two team names
    of a title made by [get_title] when the matchday label and the names have
    no line feed, the names are not empty, the first name neither contains
    [" - "] nor starts with ["- "], and the second neither contains [" vs "]
    nor starts with ["vs "]; whatever the label and the game number. *)
Theorem title_round_trip (row : MatchesRow) (md t1 t2 : string) :
  Matchday row = Some md → Team1_name row = Some t1 → Team2_name row = Some t2 →
  one_line md = true → one_line t1 = true → one_line t2 = true →
  t1 ≠ EmptyString → t2 ≠ EmptyString →
  contains " - " t1 = false → starts_with "- " t1 = false →
  contains " vs " t2 = false → starts_with "vs " t2 = false →
  ∃ title, get_title row = Ok title ∧ title_teams title = Ok (t1, t2).
Proof.
  intros Hmd Ht1 Ht2 Lmd L1 L2 N1 N2 C1 S1 C2 S2.
  assert (contains " - " (" " +:+ t1) = false) as Hsep1.
  { change (starts_with "- " t1 || contains " - " t1 = false). by rewrite S1, C1. }
  assert (contains " vs " (" " +:+ t2) = false) as Hsep2.
  { change (starts_with "vs " t2 || contains " vs " t2 = false). by rewrite S2, C2. }
  assert (∀ before, one_line before = true →
            title_teams (before +:+ " - " +:+ t1 +:+ " vs " +:+ t2) = Ok (t1, t2))
    as Hteams.
  { intros before Hb. unfold title_teams.
    by rewrite (re_match_title t1 t2 L1 L2 N1 N2 Hsep1 Hsep2 before Hb). }
  unfold get_title. rewrite Hmd, Ht1, Ht2. simpl format_cell.
  destruct (isdigit md); [|destruct (bool_decide (Game_number row > 1))].
  - eexists. split; [done|]. rewrite <- append_assoc_r. apply Hteams.
    by apply (one_line_app "MD ").
  - eexists. split; [done|].
    rewrite <- (append_assoc_r " "), <- append_assoc_r. apply Hteams.
    apply one_line_app; [done|]. apply (one_line_app " "); [done|].
    apply one_line_string_of_Z.
  - eexists. split; [done|]. by apply Hteams.
Qed.

Lemma title_round_trip_witness :
  get_title row_semifinal = Ok "Semi 2 - Red Team vs Blue - Team"
  ∧ ∃ title, get_title row_semifinal = Ok title
             ∧ title_teams title = Ok ("Red Team", "Blue - Team").
Proof.
  split; [reflexivity|].
  apply (title_round_trip row_semifinal "Semi" "Red Team" "Blue - Team");
    first [reflexivity | discriminate].
Defined.

(** C9 as the claim has it fails: neither name contains [" vs "] or [" - "],
    and the greedy first group takes the [" vs"] of the title with it.  So it
    is with a first name that starts with ["- "], of which the greedy [.*]
    takes the hyphen; an empty name leaves the pattern without a match; and
    the second group stops at a line feed. *)
Lemma title_round_trip_counterexample :
  (Team1_name row_vs = Some "A" ∧ Team2_name row_vs = Some "vs B"
   ∧ contains " vs " "A" = false ∧ contains " - " "A" = false
   ∧ contains " vs " "vs B" = false ∧ contains " - " "vs B" = false
   ∧ get_title row_vs = Ok "MD 1 - A vs vs B"
   ∧ title_teams "MD 1 - A vs vs B" = Ok ("A vs", "B"))
  ∧ (Team1_name row_hyphen = Some "- X"
     ∧ contains " vs " "- X" = false ∧ contains " - " "- X" = false
     ∧ get_title row_hyphen = Ok "MD 1 - - X vs B"
     ∧ title_teams "MD 1 - - X vs B" = Ok ("X", "B"))
  ∧ (Team1_name row_no_name = Some ""
     ∧ get_title row_no_name = Ok "MD 1 -  vs B"
     ∧ title_teams "MD 1 -  vs B" = Raise AttributeError)
  ∧ (Team2_name row_two_lines = Some ("B" +:+ String "010" "C")
     ∧ contains " vs " ("B" +:+ String "010" "C") = false
     ∧ contains " - " ("B" +:+ String "010" "C") = false
     ∧ (title ←? get_title row_two_lines; title_teams title) = Ok ("A", "B")).
Proof. repeat split; reflexivity. Qed.

(** [str.isdigit] on a label: the digits of ASCII and, for instance, the
    superscript two (the bytes 194 and 178 in UTF-8), so that such a label
    gets the title of a numbered matchday; an empty team cell prints as
    ["None"]. *)
Example isdigit_sample :
  isdigit "12" = true ∧ isdigit "" = false ∧ isdigit "1a" = false
  ∧ isdigit "Semi" = false
  ∧ isdigit (String "194" (String "178" EmptyString)) = true
  ∧ get_title (matches_row 13 (String "194" (String "178" EmptyString)) 1 "A" "B")
    = Ok ("MD " +:+ String "194" (String "178" EmptyString) +:+ " - A vs B")
  ∧ get_title row_no_team = Ok "MD 2 - None vs B".
Proof. repeat split; vm_compute; reflexivity. Qed.

(** *** Rows of the Matches sheet that are dropped *)



Lemma apply_get_title_Ok (matches_df : list MatchesRow) (titles : list string) :
  apply_get_title matches_df = Ok titles →
  matches_df ≠ [] ∧ rmap get_title matches_df = Ok titles.
Proof. by destruct matches_df. Qed.

Lemma merge_divisions_row (divisions : list LeagueDivision) (r : MatchesRow)
    (x : MatchesRow * option Z) :
  x ∈ merge_divisions divisions r → x.1 = r.
Proof.
  unfold merge_divisions. destruct (filter _ divisions) as [|d ds].
  - by intros ->%list_elem_of_singleton.
  - intros (d' & -> & _)%list_elem_of_fmap. done.
Qed.

Lemma merge_divisions_not_empty (divisions : list LeagueDivision) (r : MatchesRow) :
  ∃ x, x ∈ merge_divisions divisions r.
Proof.
  unfold merge_divisions. destruct (filter _ divisions) as [|d ds]; eexists; left.
Qed.

Lemma match_create_input_id (x : MatchesRow * option Z) (m : LeagueMatch) :
  match_create_input x = Ok m → match_id m = Matches_id x.1.
Proof.
  unfold match_create_input. destruct (get_title x.1); simpl; [|done].
  destruct x.2; simpl; [|done]. destruct (Time x.1); simpl; [|done].
  by intros [= <-].
Qed.


Lemma merge_matches_row (matches : list LeagueMatch) (r x : MatchesRow) :
  x ∈ merge_matches matches r → x = r.
Proof.
  unfold merge_matches. destruct (filter _ matches) as [|m ms].
  - by intros ->%list_elem_of_singleton.
  - by intros (m' & -> & _)%list_elem_of_fmap.
Qed.






(** A row with an empty first team cell is kept, and a sheet whose rows are
    all dropped makes both steps raise. *)
Example kept_rows_empty_cell :
  kept_rows [row_bye; row_no_team] = [row_no_team]
  ∧ (create_matches workbook_bye db_two_teams).2 = Raise ValueError
  ∧ (create_matches_details workbook_bye db_two_teams).2 = Raise ValueError.
Proof. repeat split; reflexivity. Qed.

(** *** Names without a match *)

Lemma foldl_insert_lookup {A} (id : A → Z) (name : A → string) (table_rows : list A)
    (d0 : gmap string Z) (s : string) (i : Z) :
  foldl (λ d r, <[name r := id r]> d) d0 table_rows !! s = Some i →
  d0 !! s = Some i ∨ ∃ r, r ∈ table_rows ∧ name r = s ∧ id r = i.
Proof.
  revert d0. induction table_rows as [|r l IH]; intros d0; simpl; [by left|].
  intros [H|(r' & Hr' & Hn & Hi)]%IH.
  - destruct (decide (name r = s)) as [Hs|Hs].
    + rewrite Hs, lookup_insert_eq in H. injection H as <-.
      right. exists r. split; [left|done].
    + rewrite lookup_insert_ne in H by done. by left.
  - right. exists r'. split; [by right|done].
Qed.

(** A name that matches no row is not a key of the dictionary. *)
Lemma id_by_name_unknown {A} (id : A → Z) (name : A → string) (table_rows : list A)
    (d : gmap string Z) (x : option string) :
  id_by_name id name table_rows = Ok d →
  ¬ known name table_rows x → id_or_sentinel d x = -1.
Proof.
  intros Hd Hx. destruct x as [s|]; [|done]. simpl.
  destruct (d !! s) as [i|] eqn:Hs; [|done]. exfalso. apply Hx.
  unfold id_by_name in Hd. destruct table_rows as [|r0 l]; [done|]. injection Hd as <-.
  apply (foldl_insert_lookup id name (r0 :: l) ∅) in Hs as [Hs|(r & Hr & <- & _)].
  - by rewrite lookup_empty in Hs.
  - by exists r.
Qed.

Lemma id_by_name_Ok {A} (id : A → Z) (name : A → string) (table_rows : list A) :
  table_rows ≠ [] → ∃ d, id_by_name id name table_rows = Ok d.
Proof. destruct table_rows; [done|]. intros _. by eexists. Qed.

Lemma team_division_link_ids (teams_dict divisions_dict : gmap string Z) (r : TeamsRow)
    (l : LeagueTeamDivisions) :
  team_division_link teams_dict divisions_dict r = Some l →
  td_leagueTeamId l ≠ -1 ∧ td_leagueDivisionId l ≠ -1.
Proof. unfold team_division_link. case_decide; [|done]. by intros [= <-]. Qed.

Lemma active_link_ids (players_dict teams_dict : gmap string Z) (r : PlayersRow)
    (l : LeaguePlayerTeams) :
  active_link players_dict teams_dict r = Some l →
  pt_leaguePlayerId l ≠ -1 ∧ pt_leagueTeamId l ≠ -1.
Proof. unfold active_link. case_decide; [|done]. by intros [= <-]. Qed.

Lemma inactive_link_ids (players_dict teams_dict : gmap string Z) (col : nat)
    (r : PlayersRow) (l : LeaguePlayerTeams) :
  inactive_link players_dict teams_dict col r = Some l →
  pt_leaguePlayerId l ≠ -1 ∧ pt_leagueTeamId l ≠ -1.
Proof.
  unfold inactive_link. destruct (old_team r !! col); [|done].
  case_decide; [|done]. by intros [= <-].
Qed.

(** Where each table a name is looked up in holds at least one row,
    relationship building does not raise; a row of the sheet whose team,
    division or player name matches no row of the table yields no link, and
    every link inserted has both ids different from -1. *)
Lemma unresolved_names_are_skipped (excel : UploadedFile) (db : Prisma) :
  (∀ teams_df, Teams excel = Some teams_df →
     rows (leagueteam db) ≠ [] → rows (leaguedivision db) ≠ [] →
     ∃ teams_dict divisions_dict,
       let link := team_division_link teams_dict divisions_dict in
       let data_list := omap link teams_df in
       create_team_divisions_relationship excel db
       = (set_leagueteamdivisions (append_rows data_list) db,
          Ok (Z.of_nat (length data_list)))
       ∧ (∀ r, ¬ known team_name (rows (leagueteam db)) (Some (Teams_name r))
               ∨ ¬ known division_name (rows (leaguedivision db)) (Teams_Division_name r) →
               link r = None)
       ∧ (∀ l, l ∈ data_list → td_leagueTeamId l ≠ -1 ∧ td_leagueDivisionId l ≠ -1))
  ∧ (∀ players_df, Players excel = Some players_df →
     rows (leagueplayer db) ≠ [] → rows (leagueteam db) ≠ [] →
     ∃ players_dict teams_dict,
       let active_of := active_link players_dict teams_dict in
       let inactive_of := inactive_link players_dict teams_dict in
       let data_list_active := omap active_of players_df in
       let data_list_inactive :=
         mjoin ((λ col, omap (inactive_of col) players_df)
                  <$> seq 0 (old_team_columns players_df)) in
       create_team_players_relationship excel db
       = (set_leagueplayerteams (append_rows data_list_inactive)
            (set_leagueplayerteams (append_rows data_list_active) db),
          Ok (Z.of_nat (length data_list_active) + Z.of_nat (length data_list_inactive)))
       ∧ (∀ r, ¬ known player_name (rows (leagueplayer db)) (Some (Player r)) →
               active_of r = None ∧ ∀ col, inactive_of col r = None)
       ∧ (∀ r, ¬ known team_name (rows (leagueteam db)) (Team r) → active_of r = None)
       ∧ (∀ r col cell, old_team r !! col = Some cell →
               ¬ known team_name (rows (leagueteam db)) cell → inactive_of col r = None)
       ∧ (∀ l, l ∈ data_list_active ++ data_list_inactive →
               pt_leaguePlayerId l ≠ -1 ∧ pt_leagueTeamId l ≠ -1)).
Proof.
  split.
  - intros teams_df Hsheet Ht Hd.
    destruct (id_by_name_Ok team_id team_name _ Ht) as [teams_dict Htd].
    destruct (id_by_name_Ok division_id division_name _ Hd) as [divisions_dict Hdd].
    exists teams_dict, divisions_dict. simpl. split; [|split].
    + unfold create_team_divisions_relationship, bind, lift, find_many, create_many.
      rewrite Hsheet. simpl. rewrite Htd, Hdd. done.
    + intros r Hr. unfold team_division_link.
      rewrite decide_False; [done|]. intros [Hk Hv].
      destruct Hr as [Hr|Hr].
      * by apply Hk, (id_by_name_unknown _ _ _ _ _ Htd).
      * by apply Hv, (id_by_name_unknown _ _ _ _ _ Hdd).
    + intros l (r & _ & Hl)%list_elem_of_omap. by eapply team_division_link_ids.
  - intros players_df Hsheet Hp Ht.
    destruct (id_by_name_Ok player_id player_name _ Hp) as [players_dict Hpd].
    destruct (id_by_name_Ok team_id team_name _ Ht) as [teams_dict Htd].
    exists players_dict, teams_dict. simpl. split; [|split; [|split; [|split]]].
    + unfold create_team_players_relationship, bind, lift, find_many, create_many, ret.
      rewrite Hsheet. simpl. rewrite Hpd. destruct db. simpl in *. rewrite Htd. done.
    + intros r Hr.
      pose proof (id_by_name_unknown _ _ _ _ _ Hpd Hr) as Hk. split.
      * unfold active_link. rewrite decide_False; [done|]. tauto.
      * intros col. unfold inactive_link. destruct (old_team r !! col); [|done].
        rewrite decide_False; [done|]. tauto.
    + intros r Hr. pose proof (id_by_name_unknown _ _ _ _ _ Htd Hr) as Hv.
      unfold active_link. rewrite decide_False; [done|]. tauto.
    + intros r col cell Hcell Hr. pose proof (id_by_name_unknown _ _ _ _ _ Htd Hr) as Hv.
      unfold inactive_link. rewrite Hcell. rewrite decide_False; [done|]. tauto.
    + intros l [Hl|Hl]%elem_of_app.
      * apply list_elem_of_omap in Hl as (r & _ & Hl). by eapply active_link_ids.
      * apply list_elem_of_join in Hl as (ls & Hl & (col & -> & _)%list_elem_of_fmap).
        apply list_elem_of_omap in Hl as (r & _ & Hl). by eapply inactive_link_ids.
Qed.

(** On [workbook_links] the known team in the known division is linked, and
    the two rows with a name that is not known are skipped. *)
Example unresolved_names_sample :
  (create_team_divisions_relationship workbook_links db_two_teams).2 = Ok 1
  ∧ rows (leagueteamdivisions
            (create_team_divisions_relationship workbook_links db_two_teams).1)
    = [{| td_leagueTeamId := 1; td_leagueDivisionId := 1 |}]
  ∧ ∃ teams_dict divisions_dict,
      team_division_link teams_dict divisions_dict (teams_row "D1" "C" "CCC") = None
      ∧ team_division_link teams_dict divisions_dict (teams_row "D9" "B" "BBB") = None.
Proof.
  split; [reflexivity|]. split; [reflexivity|].
  destruct (proj1 (unresolved_names_are_skipped workbook_links db_two_teams)
              _ eq_refl ltac:(discriminate) ltac:(discriminate))
    as (teams_dict & divisions_dict & _ & Hskip & _).
  exists teams_dict, divisions_dict. split; apply Hskip.
  - left. intros (t & Ht & Hn). simpl in Ht.
    repeat (apply elem_of_cons in Ht as [->|Ht]; [discriminate|]).
    by apply not_elem_of_nil in Ht.
  - right. intros (d & Hd & Hn). simpl in Hd.
    repeat (apply elem_of_cons in Hd as [->|Hd]; [discriminate|]).
    by apply not_elem_of_nil in Hd.
Qed.

(** C7 at a database without divisions: the division name of the sheet has
    no match, and instead of the sentinel the step raises [KeyError], while it
    builds the dictionary of the divisions from a frame without columns.  The
    database is the one the import leaves after three steps when the
    Divisions sheet has no row, and the import reports the fourth step. *)
Theorem relationship_raises_on_empty_table :
  Teams workbook_no_divisions = Some [teams_row "D1" "A" "AAA"]
  ∧ (bind (create_season workbook_no_divisions)
       (λ season, bind (create_divisions workbook_no_divisions season)
          (λ _, create_teams workbook_no_divisions)) empty_db).1 = db_no_division
  ∧ rows (leaguedivision db_no_division) = []
  ∧ create_team_divisions_relationship workbook_no_divisions db_no_division
    = (db_no_division, Raise KeyError)
  ∧ st_error (treat_excel_file empty_db workbook_no_divisions)
    = [("Error while creating team divisions relationship. Clearing database.", KeyError)]
  ∧ returned (treat_excel_file empty_db workbook_no_divisions) = false.
Proof. repeat split; reflexivity. Qed.

(** *** The import and its handlers *)

Lemma clear_league_db_tables (db : Prisma) :
  rows (leagueseason (clear_league_db db)) = []
  ∧ rows (leaguedivision (clear_league_db db)) = []
  ∧ rows (leagueteam (clear_league_db db)) = []
  ∧ rows (leagueplayer (clear_league_db db)) = []
  ∧ rows (leagueplayerteams (clear_league_db db)) = []
  ∧ rows (leaguematch (clear_league_db db)) = []
  ∧ rows (leaguematchdetail (clear_league_db db)) = []
  ∧ leagueteamdivisions (clear_league_db db) = leagueteamdivisions db.
Proof. by destruct db. Qed.

(** [treat_excel_file] is the sequence of the eight steps, with the handler
    of the step that raises. *)
Lemma treat_excel_file_outcome (db : Prisma) (excel_file : UploadedFile) :
  match eight_steps excel_file db with
  | (db', Ok _) =>
    treat_excel_file db excel_file = {| db_after := db'; st_error := []; returned := true |}
  | (db', Raise e) =>
    ∃ message, treat_excel_file db excel_file = failed message e db'
  end.
Proof.
  unfold eight_steps, treat_excel_file, bind, ret.
  destruct (create_season excel_file db) as [db1 [season|e]]; [|by eexists].
  destruct (create_divisions excel_file season db1) as [db2 [?|e]]; [|by eexists].
  destruct (create_teams excel_file db2) as [db3 [?|e]]; [|by eexists].
  destruct (create_team_divisions_relationship excel_file db3) as [db4 [?|e]]; [|by eexists].
  destruct (create_players excel_file db4) as [db5 [?|e]]; [|by eexists].
  destruct (create_team_players_relationship excel_file db5) as [db6 [?|e]]; [|by eexists].
  destruct (create_matches excel_file db6) as [db7 [?|e]]; [|by eexists].
  destruct (create_matches_details excel_file db7) as [db8 [?|e]]; [|by eexists].
  done.
Qed.

(** The sequence completes exactly when each step does, on the database the
    step before has left. *)
Lemma eight_steps_complete (db db8 : Prisma) (excel_file : UploadedFile) :
  eight_steps excel_file db = (db8, Ok ()) ↔
  ∃ season db1 n2 db2 n3 db3 n4 db4 n5 db5 n6 db6 n7 db7 n8,
    create_season excel_file db = (db1, Ok season)
    ∧ create_divisions excel_file season db1 = (db2, Ok n2)
    ∧ create_teams excel_file db2 = (db3, Ok n3)
    ∧ create_team_divisions_relationship excel_file db3 = (db4, Ok n4)
    ∧ create_players excel_file db4 = (db5, Ok n5)
    ∧ create_team_players_relationship excel_file db5 = (db6, Ok n6)
    ∧ create_matches excel_file db6 = (db7, Ok n7)
    ∧ create_matches_details excel_file db7 = (db8, Ok n8).
Proof.
  unfold eight_steps, bind, ret. split.
  - destruct (create_season excel_file db) as [db1 [season|e]] eqn:H1; [|done].
    destruct (create_divisions excel_file season db1) as [db2 [n2|e]] eqn:H2; [|done].
    destruct (create_teams excel_file db2) as [db3 [n3|e]] eqn:H3; [|done].
    destruct (create_team_divisions_relationship excel_file db3) as [db4 [n4|e]] eqn:H4;
      [|done].
    destruct (create_players excel_file db4) as [db5 [n5|e]] eqn:H5; [|done].
    destruct (create_team_players_relationship excel_file db5) as [db6 [n6|e]] eqn:H6;
      [|done].
    destruct (create_matches excel_file db6) as [db7 [n7|e]] eqn:H7; [|done].
    destruct (create_matches_details excel_file db7) as [db9 [n8|e]] eqn:H8; [|done].
    intros [= <-].
    by exists season, db1, n2, db2, n3, db3, n4, db4, n5, db5, n6, db6, n7, db7, n8.
  - intros (season & db1 & n2 & db2 & n3 & db3 & n4 & db4 & n5 & db5 & n6 & db6 & n7
            & db7 & n8 & -> & -> & -> & -> & -> & -> & -> & ->). done.
Qed.

(** C10: [treat_excel_file] returns a boolean whatever the steps do: [True]
    exactly when the eight steps complete in a row without raising, and
    [False], after one call of [st.error] and the clearing of the database,
    when a step raises. *)
Theorem treat_excel_file_returns (db : Prisma) (excel_file : UploadedFile) :
  (returned (treat_excel_file db excel_file) = true
   ↔ ∃ db', eight_steps excel_file db = (db', Ok ()))
  ∧ (∀ db' e, eight_steps excel_file db = (db', Raise e) →
       returned (treat_excel_file db excel_file) = false
       ∧ db_after (treat_excel_file db excel_file) = clear_league_db db'
       ∧ ∃ message, st_error (treat_excel_file db excel_file) = [(message, e)])
  ∧ (∀ db', eight_steps excel_file db = (db', Ok ()) →
       db_after (treat_excel_file db excel_file) = db'
       ∧ st_error (treat_excel_file db excel_file) = []).
Proof.
  pose proof (treat_excel_file_outcome db excel_file) as H.
  destruct (eight_steps excel_file db) as [db1 [[]|e]].
  - rewrite H. simpl. split; [|split].
    + split; [by eexists|done].
    + intros ?? [=].
    + by intros ? [= <-].
  - destruct H as [message ->]. simpl. split; [|split].
    + split; [done|]. by intros [? [=]].
    + intros ?? [= <- <-]. split; [done|]. split; [done|]. by eexists.
    + intros ? [=].
Qed.

(** After a step has raised, seven of the eight tables are empty; the
    team-division links are what they were when the step raised. *)
Lemma treat_excel_file_failure (db db' : Prisma) (excel_file : UploadedFile) (e : Exception) :
  eight_steps excel_file db = (db', Raise e) →
  let after := db_after (treat_excel_file db excel_file) in
  rows (leagueseason after) = [] ∧ rows (leaguedivision after) = []
  ∧ rows (leagueteam after) = [] ∧ rows (leagueplayer after) = []
  ∧ rows (leagueplayerteams after) = [] ∧ rows (leaguematch after) = []
  ∧ rows (leaguematchdetail after) = []
  ∧ leagueteamdivisions after = leagueteamdivisions db'.
Proof.
  intros H. pose proof (treat_excel_file_outcome db excel_file) as Ho.
  rewrite H in Ho. destruct Ho as [message ->]. simpl. apply clear_league_db_tables.
Qed.

(** C1 at a workbook without a Players sheet: the import fails at the fifth
    step and returns [False], and the link of team "A" to division "D1",
    inserted by the fourth step, is still in the database. *)
Theorem treat_excel_file_leaves_team_divisions :
  returned (treat_excel_file empty_db workbook_no_players) = false
  ∧ st_error (treat_excel_file empty_db workbook_no_players)
    = [("Error while creating players. Clearing database.", ValueError)]
  ∧ rows (leagueteamdivisions (db_after (treat_excel_file empty_db workbook_no_players)))
    = [{| td_leagueTeamId := 1; td_leagueDivisionId := 1 |}]
  ∧ rows (leagueteam (db_after (treat_excel_file empty_db workbook_no_players))) = [].
Proof. repeat split; reflexivity. Qed.

(** *** What the pattern of the export matches *)

Lemma append_cons (c : ascii) (s t : string) : String c s +:+ t = String c (s +:+ t).
Proof. done. Qed.

Lemma lit_sound {B} (l : string) (k : string → option B) (s : string) (b : B) :
  lit l k s = Some b → ∃ s', s = l +:+ s' ∧ k s' = Some b.
Proof.
  revert s. induction l as [|c l IH]; intros s; simpl.
  - intros Hk. by exists s.
  - destruct s as [|c' s]; [done|]. destruct (Ascii.eqb_spec c c') as [<-|]; [|done].
    intros (s' & -> & Hk)%IH. by exists s'.
Qed.

Lemma lit_app {B} (l : string) (k : string → option B) (s : string) :
  lit l k (l +:+ s) = k s.
Proof.
  induction l as [|c l IH]; [done|]. rewrite append_cons. simpl.
  by rewrite Ascii.eqb_refl.
Qed.

Lemma star_sound {B} (k : string → option B) (s p : string) (b : B) :
  star k s = Some (p, b) → ∃ s', s = p +:+ s' ∧ one_line p = true ∧ k s' = Some b.
Proof.
  revert p b. induction s as [|c s IH]; intros p b; simpl.
  - destruct (k EmptyString) as [b'|] eqn:Hk; [|done]. intros [= <- <-]. by exists EmptyString.
  - destruct (dot c) eqn:Hc; [destruct (star k s) as [[p' b']|] eqn:Hs|]; simpl.
    + intros [= <- <-]. destruct (IH p' b' eq_refl) as (s' & -> & Hp & Hk).
      exists s'. rewrite append_cons. simpl. by rewrite Hc.
    + destruct (k (String c s)) as [b'|] eqn:Hk; [|done]. intros [= <- <-].
      by exists (String c s).
    + destruct (k (String c s)) as [b'|] eqn:Hk; [|done]. intros [= <- <-].
      by exists (String c s).
Qed.

Lemma plus_sound {B} (k : string → option B) (s p : string) (b : B) :
  plus k s = Some (p, b) →
  ∃ s', s = p +:+ s' ∧ one_line p = true ∧ p ≠ EmptyString ∧ k s' = Some b.
Proof.
  destruct s as [|c s]; simpl; [done|]. destruct (dot c) eqn:Hc; [|done].
  destruct (star k s) as [[p' b']|] eqn:Hs; [|done]. simpl. intros [= <- <-].
  apply star_sound in Hs as (s' & -> & Hp & Hk). exists s'.
  rewrite append_cons. simpl. by rewrite Hc.
Qed.

(** A greedy repetition finds a match whenever one begins after a prefix
    without line feed. *)
Lemma star_complete {B} (k : string → option B) (p s : string) :
  one_line p = true → is_Some (k s) → is_Some (star k (p +:+ s)).
Proof.
  intros Hp [b Hk]. induction p as [|c p IH].
  - destruct s as [|c s]; simpl; rewrite Hk; [by eexists|].
    destruct (dot c); [|by eexists]. destruct (star k s); by eexists.
  - simpl in Hp. apply andb_true_iff in Hp as [Hc Hp]. rewrite append_cons. simpl.
    rewrite Hc. destruct (IH Hp) as [r ->]. by eexists.
Qed.

Lemma plus_complete {B} (k : string → option B) (p s : string) :
  p ≠ EmptyString → one_line p = true → is_Some (k s) → is_Some (plus k (p +:+ s)).
Proof.
  destruct p as [|c p]; [done|]. intros _ Hp Hk. simpl in Hp.
  apply andb_true_iff in Hp as [Hc Hp]. rewrite append_cons. simpl. rewrite Hc.
  destruct (star_complete k p s Hp Hk) as [r ->]. by eexists.
Qed.

(** X8: when the pattern of the export matches a title, the title reads
    [before - group1 vs group2 after], where [before] and the two groups have
    no line feed and the groups are not empty: the export never gives an
    empty team name. *)
Theorem title_teams_sound (title g1 g2 : string) :
  title_teams title = Ok (g1, g2) →
  ∃ before after,
    title = before +:+ " - " +:+ g1 +:+ " vs " +:+ g2 +:+ after
    ∧ one_line before = true ∧ one_line g1 = true ∧ one_line g2 = true
    ∧ g1 ≠ EmptyString ∧ g2 ≠ EmptyString.
Proof.
  unfold title_teams. destruct (re_match title) as [[before [g1' [g2' []]]]|] eqn:Hm; [|done].
  simpl. intros [= <- <-]. unfold re_match in Hm.
  apply star_sound in Hm as (s1 & -> & Hbefore & Hm).
  apply lit_sound in Hm as (s2 & -> & Hm).
  apply plus_sound in Hm as (s3 & -> & Hg1 & Hn1 & Hm).
  apply lit_sound in Hm as (s4 & -> & Hm).
  apply plus_sound in Hm as (after & -> & Hg2 & Hn2 & _).
  by exists before, after.
Qed.

Lemma title_teams_sound_witness :
  ∃ before after,
    "MD 1 - A vs vs B" = before +:+ " - " +:+ "A vs" +:+ " vs " +:+ "B" +:+ after
    ∧ one_line before = true ∧ one_line "A vs" = true ∧ one_line "B" = true
    ∧ "A vs" ≠ EmptyString ∧ "B" ≠ EmptyString.
Proof. apply (title_teams_sound "MD 1 - A vs vs B" "A vs" "B"). reflexivity. Defined.

(** X9: the export finds two team names in the title of every row whose
    matchday label and two team names have no line feed, the two names not
    being empty: [re.match(...)] is not [None] and [.group] does not raise. *)
Theorem title_teams_of_get_title (row : MatchesRow) (md : string) :
  Matchday row = Some md → one_line md = true →
  one_line (format_cell (Team1_name row)) = true →
  format_cell (Team1_name row) ≠ EmptyString →
  one_line (format_cell (Team2_name row)) = true →
  format_cell (Team2_name row) ≠ EmptyString →
  ∃ title g1 g2, get_title row = Ok title ∧ title_teams title = Ok (g1, g2).
Proof.
  intros Hmd Lmd L1 N1 L2 N2.
  set (t1 := format_cell (Team1_name row)) in *.
  set (t2 := format_cell (Team2_name row)) in *.
  assert (∀ before, one_line before = true →
            ∃ g1 g2, title_teams (before +:+ " - " +:+ t1 +:+ " vs " +:+ t2) = Ok (g1, g2))
    as Hteams.
  { intros before Hb. unfold title_teams, re_match.
    destruct (star_complete (lit " - " after_hyphen) before
                (" - " +:+ t1 +:+ " vs " +:+ t2) Hb) as [[p [g1 [g2 []]]] ->].
    - rewrite lit_app. apply plus_complete; [done..|].
      unfold after_group1. rewrite lit_app.
      rewrite <- (append_empty_r t2). apply plus_complete; [done..|]. by eexists.
    - by exists g1, g2. }
  unfold get_title. rewrite Hmd. fold t1 t2.
  destruct (isdigit md); [|destruct (bool_decide (Game_number row > 1))].
  - destruct (Hteams ("MD " +:+ md)) as (g1 & g2 & H);
      [by apply (one_line_app "MD ")|].
    rewrite append_assoc_r in H. by eexists _, g1, g2.
  - destruct (Hteams (md +:+ " " +:+ string_of_Z (Game_number row))) as (g1 & g2 & H).
    { apply one_line_app; [done|]. apply (one_line_app " "); [done|].
      apply one_line_string_of_Z. }
    rewrite append_assoc_r, (append_assoc_r " ") in H. by eexists _, g1, g2.
  - destruct (Hteams md Lmd) as (g1 & g2 & H). by eexists _, g1, g2.
Qed.

Lemma title_teams_of_get_title_witness :
  ∃ title g1 g2, get_title row_vs = Ok title ∧ title_teams title = Ok (g1, g2).
Proof.
  apply (title_teams_of_get_title row_vs "1"); first [reflexivity | discriminate].
Defined.

(** *** What the steps write *)

Ltac unfold_step :=
  unfold create_season, create_divisions, create_teams,
    create_team_divisions_relationship, create_players,
    create_team_players_relationship, create_matches, create_matches_details,
    bind, lift, find_many, create_many, ret, read_excel.

(** X10: each of the seven steps that write once, with their last
    statement, has written nothing when it raises: the missing sheet, the
    empty table, the sheet of matches without a kept row, the empty
    matchday, the division name that is not known and the unreadable time
    are all met before [create_many], so the handler of [treat_excel_file]
    clears the database as the steps before have left it.  (The step of the
    links of players and teams writes twice and is not among them.) *)
Theorem steps_raise_before_writing (excel : UploadedFile) (db db' : Prisma) (e : Exception) :
  (create_season excel db = (db', Raise e) → db' = db)
  ∧ (∀ season, create_divisions excel season db = (db', Raise e) → db' = db)
  ∧ (create_teams excel db = (db', Raise e) → db' = db)
  ∧ (create_team_divisions_relationship excel db = (db', Raise e) → db' = db)
  ∧ (create_players excel db = (db', Raise e) → db' = db)
  ∧ (create_matches excel db = (db', Raise e) → db' = db)
  ∧ (create_matches_details excel db = (db', Raise e) → db' = db).
Proof.
  split; [|split; [|split; [|split; [|split; [|split]]]]].
  2: intros season.
  all: unfold_step; intros H; repeat case_match; simplify_eq; done.
Qed.

Lemma append_auto_rows {A D} (mk : Z → D → A) (data : list D) (t : table A) :
  rows (append_auto mk data t)
  = rows t ++ imap (λ i x, mk (last_id t + 1 + Z.of_nat i) x) data
  ∧ last_id (append_auto mk data t) = last_id t + Z.of_nat (length data).
Proof.
  revert t. induction data as [|x data IH]; intros t; simpl.
  - rewrite app_nil_r. split; [done|lia].
  - destruct (IH {| rows := rows t ++ [mk (last_id t + 1) x];
                    last_id := last_id t + 1 |}) as [-> ->]. simpl. split; [|lia].
    rewrite <- app_assoc. simpl. do 2 f_equal; [f_equal; lia|].
    apply imap_ext. intros i y _. simpl. f_equal. lia.
Qed.

Lemma append_auto_prefix {A D} (mk : Z → D → A) (data : list D) (t : table A) :
  rows t `prefix_of` rows (append_auto mk data t).
Proof. rewrite (proj1 (append_auto_rows mk data t)). by apply prefix_app_r. Qed.

Lemma append_auto_length {A D} (mk : Z → D → A) (data : list D) (t : table A) :
  length (rows (append_auto mk data t)) = (length (rows t) + length data)%nat.
Proof. rewrite (proj1 (append_auto_rows mk data t)). by rewrite length_app, length_imap. Qed.

Lemma append_rows_prefix {A} (data : list A) (t : table A) :
  rows t `prefix_of` rows (append_rows data t).
Proof. by apply prefix_app_r. Qed.

Lemma extends_refl (db : Prisma) : extends db db.
Proof. by repeat split. Qed.

Lemma extends_trans (db1 db2 db3 : Prisma) :
  extends db1 db2 → extends db2 db3 → extends db1 db3.
Proof.
  intros (?&?&?&?&?&?&?&?) (?&?&?&?&?&?&?&?).
  repeat split; by etrans.
Qed.

Ltac solve_extends :=
  repeat split; simpl;
  first [ done | apply append_auto_prefix | by repeat apply prefix_app_r ].

(** A step that completes leaves every row where it was. *)
Lemma steps_extend (excel : UploadedFile) (db db' : Prisma) :
  (∀ season, create_season excel db = (db', Ok season) → extends db db')
  ∧ (∀ season n, create_divisions excel season db = (db', Ok n) → extends db db')
  ∧ (∀ n, create_teams excel db = (db', Ok n) → extends db db')
  ∧ (∀ n, create_team_divisions_relationship excel db = (db', Ok n) → extends db db')
  ∧ (∀ n, create_players excel db = (db', Ok n) → extends db db')
  ∧ (∀ n, create_team_players_relationship excel db = (db', Ok n) → extends db db')
  ∧ (∀ n, create_matches excel db = (db', Ok n) → extends db db')
  ∧ (∀ n, create_matches_details excel db = (db', Ok n) → extends db db').
Proof.
  split; [|split; [|split; [|split; [|split; [|split; [|split]]]]]].
  1: intros season. 2: intros season n. 3-8: intros n.
  all: unfold_step; intros H; repeat case_match; simplify_eq; destruct db; solve_extends.
Qed.

(** X11: an import that returns [True] has only added rows: every table of
    the database begins with the rows it had before, in their order; no row
    is deleted or replaced. *)
Theorem treat_excel_file_extends (db : Prisma) (excel_file : UploadedFile) :
  returned (treat_excel_file db excel_file) = true →
  extends db (db_after (treat_excel_file db excel_file)).
Proof.
  intros Htrue. pose proof (treat_excel_file_outcome db excel_file) as Ho.
  destruct (eight_steps excel_file db) as [db8 [[]|e]] eqn:Hsteps.
  - rewrite Ho. simpl.
    apply eight_steps_complete in Hsteps
      as (season & db1 & n2 & db2 & n3 & db3 & n4 & db4 & n5 & db5 & n6 & db6 & n7 & db7
          & n8 & H1 & H2 & H3 & H4 & H5 & H6 & H7 & H8).
    eapply extends_trans; [by eapply (proj1 (steps_extend excel_file db db1))|].
    eapply extends_trans;
      [by eapply (proj1 (proj2 (steps_extend excel_file db1 db2)))|].
    eapply extends_trans;
      [by eapply (proj1 (proj2 (proj2 (steps_extend excel_file db2 db3))))|].
    eapply extends_trans;
      [by eapply (proj1 (proj2 (proj2 (proj2 (steps_extend excel_file db3 db4)))))|].
    eapply extends_trans;
      [by eapply (proj1 (proj2 (proj2 (proj2 (proj2 (steps_extend excel_file db4 db5))))))|].
    eapply extends_trans;
      [by eapply (proj1 (proj2 (proj2 (proj2 (proj2 (proj2
                    (steps_extend excel_file db5 db6)))))))|].
    eapply extends_trans;
      [by eapply (proj1 (proj2 (proj2 (proj2 (proj2 (proj2 (proj2
                    (steps_extend excel_file db6 db7))))))))|].
    by eapply (proj2 (proj2 (proj2 (proj2 (proj2 (proj2 (proj2
                 (steps_extend excel_file db7 db8)))))))).
  - destruct Ho as [message Ho]. by rewrite Ho in Htrue.
Qed.

(** X12: a step that completes changes one table only, the one it is named
    after, and (but for [create_season], which returns the season) returns
    the number of rows it has added to it; for the links of players and
    teams, the number of active and inactive links together. *)
Theorem steps_write_one_table (excel : UploadedFile) (db db' : Prisma) :
  (∀ season, create_season excel db = (db', Ok season) →
     db' = set_leagueseason (λ _, leagueseason db') db
     ∧ rows (leagueseason db') = rows (leagueseason db) ++ [season])
  ∧ (∀ season n, create_divisions excel season db = (db', Ok n) →
     db' = set_leaguedivision (λ _, leaguedivision db') db
     ∧ Z.of_nat (length (rows (leaguedivision db')))
       = Z.of_nat (length (rows (leaguedivision db))) + n)
  ∧ (∀ n, create_teams excel db = (db', Ok n) →
     db' = set_leagueteam (λ _, leagueteam db') db
     ∧ Z.of_nat (length (rows (leagueteam db')))
       = Z.of_nat (length (rows (leagueteam db))) + n)
  ∧ (∀ n, create_team_divisions_relationship excel db = (db', Ok n) →
     db' = set_leagueteamdivisions (λ _, leagueteamdivisions db') db
     ∧ Z.of_nat (length (rows (leagueteamdivisions db')))
       = Z.of_nat (length (rows (leagueteamdivisions db))) + n)
  ∧ (∀ n, create_players excel db = (db', Ok n) →
     db' = set_leagueplayer (λ _, leagueplayer db') db
     ∧ Z.of_nat (length (rows (leagueplayer db')))
       = Z.of_nat (length (rows (leagueplayer db))) + n)
  ∧ (∀ n, create_team_players_relationship excel db = (db', Ok n) →
     db' = set_leagueplayerteams (λ _, leagueplayerteams db') db
     ∧ Z.of_nat (length (rows (leagueplayerteams db')))
       = Z.of_nat (length (rows (leagueplayerteams db))) + n)
  ∧ (∀ n, create_matches excel db = (db', Ok n) →
     db' = set_leaguematch (λ _, leaguematch db') db
     ∧ Z.of_nat (length (rows (leaguematch db')))
       = Z.of_nat (length (rows (leaguematch db))) + n)
  ∧ (∀ n, create_matches_details excel db = (db', Ok n) →
     db' = set_leaguematchdetail (λ _, leaguematchdetail db') db
     ∧ Z.of_nat (length (rows (leaguematchdetail db')))
       = Z.of_nat (length (rows (leaguematchdetail db))) + n).
Proof.
  split; [|split; [|split; [|split; [|split; [|split; [|split]]]]]].
  1: intros season. 2: intros season n. 3-8: intros n.
  all: unfold_step; intros H; repeat case_match; simplify_eq; destruct db.
  1: by split.
  all: split; [done|]; simpl; rewrite ?append_auto_length, ?length_app; simpl; lia.
Qed.

(** *** The dictionaries of names and the links *)

Lemma foldl_insert_last {A} (id : A → Z) (name : A → string) (table_rows : list A)
    (d0 : gmap string Z) (s : string) :
  foldl (λ d r, <[name r := id r]> d) d0 table_rows !! s
  = match last (filter (λ r, name r = s) table_rows) with
    | Some r => Some (id r)
    | None => d0 !! s
    end.
Proof.
  revert d0. induction table_rows as [|r l IH]; intros d0; simpl; [done|].
  rewrite IH, filter_cons. destruct (decide (name r = s)) as [Hs|Hs].
  - rewrite last_cons. destruct (last (filter _ l)); [done|].
    by rewrite <- Hs, lookup_insert_eq.
  - destruct (last (filter _ l)); [done|]. by rewrite lookup_insert_ne.
Qed.

(** X13: the dictionary built from the rows of a table cannot be built from
    no row ([KeyError]); otherwise its keys are the names of the rows, and
    the id under a name is the id of the last row of that name, so a name
    borne by no row, and only such a name, gets the sentinel -1 (as long as
    no row has the id -1). *)
Theorem id_by_name_last {A} (id : A → Z) (name : A → string) (table_rows : list A) :
  (table_rows = [] → id_by_name id name table_rows = Raise KeyError)
  ∧ (table_rows ≠ [] →
     ∃ d, id_by_name id name table_rows = Ok d
       ∧ (∀ s, d !! s = id <$> last (filter (λ r, name r = s) table_rows))
       ∧ (∀ s, is_Some (d !! s) ↔ ∃ r, r ∈ table_rows ∧ name r = s)
       ∧ (∀ x, ¬ known name table_rows x → id_or_sentinel d x = -1)
       ∧ (∀ x, (∀ r, r ∈ table_rows → id r ≠ -1) →
               id_or_sentinel d x = -1 → ¬ known name table_rows x)).
Proof.
  split; [by intros ->|]. intros Hne.
  destruct table_rows as [|r0 l] eqn:E; [done|]. rewrite <- E in *. clear Hne.
  assert (id_by_name id name table_rows
          = Ok (foldl (λ d r, <[name r := id r]> d) ∅ table_rows)) as Hd by by rewrite E.
  eexists. split; [exact Hd|].
  assert (∀ s, foldl (λ d r, <[name r := id r]> d) (∅ : gmap string Z) table_rows !! s
               = id <$> last (filter (λ r, name r = s) table_rows)) as Hlast.
  { intros s. rewrite foldl_insert_last. by destruct (last _). }
  assert (∀ s, is_Some (foldl (λ d r, <[name r := id r]> d) (∅ : gmap string Z)
                          table_rows !! s)
               ↔ ∃ r, r ∈ table_rows ∧ name r = s) as Hkeys.
  { intros s. rewrite Hlast. split.
    - intros [i Hi]. apply fmap_Some in Hi as (r & Hr & _).
      apply last_Some_elem_of, list_elem_of_filter in Hr as [Hs Hr]. by exists r.
    - intros (r & Hr & Hs).
      assert (r ∈ filter (λ r, name r = s) table_rows) as Hf by by apply list_elem_of_filter.
      destruct (last (filter (λ r, name r = s) table_rows)) as [r'|] eqn:Hl; [by eexists|].
      apply last_None in Hl. rewrite Hl in Hf. by apply not_elem_of_nil in Hf. }
  split; [done|]. split; [done|]. split.
  - intros x Hx. by eapply id_by_name_unknown.
  - intros x Hids Hx (r & Hr & ->). simpl in Hx.
    destruct (Hkeys (name r)) as [_ [i Hi]]; [by exists r|].
    rewrite Hi in Hx. simpl in Hx. subst i.
    rewrite Hlast in Hi. apply fmap_Some in Hi as (r' & Hr' & Hi).
    apply last_Some_elem_of, list_elem_of_filter in Hr' as [_ Hr'].
    by apply (Hids r' Hr').
Qed.

Lemma id_by_name_last_witness :
  ∃ d, id_by_name team_id team_name (rows (leagueteam db_two_teams)) = Ok d
    ∧ (∀ s, d !! s = team_id <$> last (filter (λ r, team_name r = s)
                                             (rows (leagueteam db_two_teams))))
    ∧ (∀ s, is_Some (d !! s) ↔ ∃ r, r ∈ rows (leagueteam db_two_teams) ∧ team_name r = s)
    ∧ (∀ x, ¬ known team_name (rows (leagueteam db_two_teams)) x → id_or_sentinel d x = -1)
    ∧ (∀ x, (∀ r, r ∈ rows (leagueteam db_two_teams) → team_id r ≠ -1) →
            id_or_sentinel d x = -1 → ¬ known team_name (rows (leagueteam db_two_teams)) x).
Proof.
  apply (proj2 (id_by_name_last team_id team_name (rows (leagueteam db_two_teams)))).
  discriminate.
Defined.

(** An id that is not the sentinel is the id of a row of the name. *)
Lemma id_or_sentinel_resolved {A} (id : A → Z) (name : A → string) (table_rows : list A)
    (d : gmap string Z) (x : option string) :
  id_by_name id name table_rows = Ok d → id_or_sentinel d x ≠ -1 →
  ∃ r, r ∈ table_rows ∧ x = Some (name r) ∧ id r = id_or_sentinel d x.
Proof.
  intros Hd Hk. destruct x as [s|]; [|done]. simpl in *.
  destruct (d !! s) as [i|] eqn:Hs; [|done]. simpl in *.
  unfold id_by_name in Hd. destruct table_rows as [|r0 l]; [done|]. injection Hd as <-.
  apply (foldl_insert_lookup id name (r0 :: l) ∅) in Hs as [Hs|(r & Hr & <- & <-)].
  - by rewrite lookup_empty in Hs.
  - by exists r.
Qed.

(** A known name gets the id of a row, not the sentinel, when no row has the
    id -1. *)
Lemma id_or_sentinel_known {A} (id : A → Z) (name : A → string) (table_rows : list A)
    (d : gmap string Z) (x : option string) :
  id_by_name id name table_rows = Ok d →
  (∀ r, r ∈ table_rows → id r ≠ -1) → known name table_rows x →
  id_or_sentinel d x ≠ -1.
Proof.
  intros Hd Hids (r & Hr & ->) Hx. simpl in Hx.
  unfold id_by_name in Hd. destruct table_rows as [|r0 l] eqn:E; [done|].
  rewrite <- E in *. injection Hd as <-.
  rewrite foldl_insert_last in Hx.
  destruct (last (filter (λ r', name r' = name r) table_rows)) as [r'|] eqn:Hl.
  - simpl in Hx. apply last_Some_elem_of, list_elem_of_filter in Hl as [_ Hr'].
    by apply (Hids r' Hr').
  - apply last_None in Hl.
    assert (r ∈ filter (λ r', name r' = name r) table_rows) as Hf
      by by apply list_elem_of_filter.
    rewrite Hl in Hf. by apply not_elem_of_nil in Hf.
Qed.

(** X14: each link of a team to a division that the step inserts joins a
    team and a division of the database that bear the two names of one row
    of the Teams sheet; and when no id is -1, every row whose two names are
    known gives a link. *)
Theorem team_division_links_resolve (excel : UploadedFile) (teams_df : list TeamsRow)
    (db db' : Prisma) (n : Z) :
  Teams excel = Some teams_df →
  create_team_divisions_relationship excel db = (db', Ok n) →
  let resolves (r : TeamsRow) (l : LeagueTeamDivisions) :=
    ∃ t d, t ∈ rows (leagueteam db) ∧ d ∈ rows (leaguedivision db)
           ∧ team_name t = Teams_name r ∧ Teams_Division_name r = Some (division_name d)
           ∧ td_leagueTeamId l = team_id t ∧ td_leagueDivisionId l = division_id d in
  ∃ data_list,
    rows (leagueteamdivisions db') = rows (leagueteamdivisions db) ++ data_list
    ∧ (∀ l, l ∈ data_list → ∃ r, r ∈ teams_df ∧ resolves r l)
    ∧ ((∀ t, t ∈ rows (leagueteam db) → team_id t ≠ -1) →
       (∀ d, d ∈ rows (leaguedivision db) → division_id d ≠ -1) →
       ∀ r, r ∈ teams_df →
            known team_name (rows (leagueteam db)) (Some (Teams_name r)) →
            known division_name (rows (leaguedivision db)) (Teams_Division_name r) →
            ∃ l, l ∈ data_list ∧ resolves r l).
Proof.
  intros Hsheet Hrun resolves. revert Hrun.
  unfold create_team_divisions_relationship, bind, lift, find_many, create_many.
  rewrite Hsheet. simpl.
  destruct (id_by_name team_id team_name _) as [teams_dict|] eqn:Htd; [|done].
  destruct (id_by_name division_id division_name _) as [divisions_dict|] eqn:Hdd; [|done].
  intros [= <- _]. eexists. split; [by destruct db|].
  assert (∀ r l, team_division_link teams_dict divisions_dict r = Some l → resolves r l)
    as Hsound.
  { intros r l Hl. unfold team_division_link in Hl. case_decide as Hk; [|done].
    destruct Hk as [Hk Hv]. injection Hl as <-.
    destruct (id_or_sentinel_resolved _ _ _ _ _ Htd Hk) as (t & Ht & [= Hn] & Hi).
    destruct (id_or_sentinel_resolved _ _ _ _ _ Hdd Hv) as (d & Hd & Hn' & Hi').
    by exists t, d. }
  split.
  - intros l (r & Hr & Hl)%list_elem_of_omap. exists r. split; [done|]. by apply Hsound.
  - intros Hti Hdi r Hr Hkt Hkd.
    pose proof (id_or_sentinel_known _ _ _ _ _ Htd Hti Hkt) as Hk.
    pose proof (id_or_sentinel_known _ _ _ _ _ Hdd Hdi Hkd) as Hv.
    destruct (team_division_link teams_dict divisions_dict r) as [l|] eqn:Hl.
    + exists l. split; [|by apply Hsound]. apply list_elem_of_omap. by exists r.
    + unfold team_division_link in Hl. by rewrite decide_True in Hl.
Qed.

Lemma team_division_links_resolve_witness :
  ∃ data_list,
    rows (leagueteamdivisions
            (create_team_divisions_relationship workbook_links db_two_teams).1)
    = rows (leagueteamdivisions db_two_teams) ++ data_list
    ∧ length data_list = 1%nat.
Proof.
  destruct (team_division_links_resolve workbook_links _ db_two_teams
              (create_team_divisions_relationship workbook_links db_two_teams).1 1
              eq_refl eq_refl) as (data_list & Hrows & _).
  exists data_list. split; [done|].
  vm_compute in Hrows. by rewrite <- Hrows.
Defined.

(** X15: each link of a player to a team that the step inserts joins a
    player of the database that bears the name of a row of the Players sheet
    to a team of the database; the team is the one of the [Team] column when
    the link is active and one of the old team columns when it is not; and
    the active links are inserted before the inactive ones. *)
Theorem player_team_links_resolve (excel : UploadedFile) (players_df : list PlayersRow)
    (db db' : Prisma) (n : Z) :
  Players excel = Some players_df →
  create_team_players_relationship excel db = (db', Ok n) →
  ∃ data_list_active data_list_inactive,
    rows (leagueplayerteams db')
    = rows (leagueplayerteams db) ++ data_list_active ++ data_list_inactive
    ∧ n = Z.of_nat (length data_list_active) + Z.of_nat (length data_list_inactive)
    ∧ (∀ l, l ∈ data_list_active →
         active l = true
         ∧ ∃ r p t, r ∈ players_df ∧ p ∈ rows (leagueplayer db) ∧ t ∈ rows (leagueteam db)
                    ∧ player_name p = Player r ∧ Team r = Some (team_name t)
                    ∧ pt_leaguePlayerId l = player_id p ∧ pt_leagueTeamId l = team_id t)
    ∧ (∀ l, l ∈ data_list_inactive →
         active l = false
         ∧ ∃ r p t, r ∈ players_df ∧ p ∈ rows (leagueplayer db) ∧ t ∈ rows (leagueteam db)
                    ∧ player_name p = Player r ∧ Some (team_name t) ∈ old_team r
                    ∧ pt_leaguePlayerId l = player_id p ∧ pt_leagueTeamId l = team_id t).
Proof.
  intros Hsheet.
  unfold create_team_players_relationship, bind, lift, find_many, create_many, ret.
  rewrite Hsheet. simpl.
  destruct (id_by_name player_id player_name _) as [players_dict|] eqn:Hpd; [|done].
  destruct db as [s d t td p pt m md]. simpl in *.
  destruct (id_by_name team_id team_name _) as [teams_dict|] eqn:Htd; [|done].
  intros [= <- <-]. eexists _, _. simpl. split; [by rewrite app_assoc|]. split; [done|].
  split.
  - intros l (r & Hr & Hl)%list_elem_of_omap. unfold active_link in Hl.
    case_decide as Hk; [|done]. destruct Hk as [Hk Hv]. injection Hl as <-. simpl.
    split; [done|].
    destruct (id_or_sentinel_resolved _ _ _ _ _ Hpd Hk) as (p' & Hp' & [= Hn] & Hi).
    destruct (id_or_sentinel_resolved _ _ _ _ _ Htd Hv) as (t' & Ht' & Hn' & Hi').
    by exists r, p', t'.
  - intros l (ls & Hl & (col & -> & _)%list_elem_of_fmap)%list_elem_of_join.
    apply list_elem_of_omap in Hl as (r & Hr & Hl). unfold inactive_link in Hl.
    destruct (old_team r !! col) as [cell|] eqn:Hcell; [|done].
    case_decide as Hk; [|done]. destruct Hk as [Hk Hv]. injection Hl as <-. simpl.
    split; [done|].
    destruct (id_or_sentinel_resolved _ _ _ _ _ Hpd Hk) as (p' & Hp' & [= Hn] & Hi).
    destruct (id_or_sentinel_resolved _ _ _ _ _ Htd Hv) as (t' & Ht' & Hn' & Hi').
    exists r, p', t'. repeat (split; [done|]). split; [|done].
    rewrite <- Hn'. by eapply list_elem_of_lookup_2.
Qed.

(** The league imported into a database that holds an earlier season: the
    team, the player and the match of that season come first in their
    tables. *)
Lemma treat_excel_file_extends_witness :
  returned (treat_excel_file db_archive workbook_league) = true
  ∧ extends db_archive (db_after (treat_excel_file db_archive workbook_league))
  ∧ team_name <$> rows (leagueteam (db_after (treat_excel_file db_archive workbook_league)))
    = ["Z"; "A"; "B"]
  ∧ match_id <$> rows (leaguematch (db_after (treat_excel_file db_archive workbook_league)))
    = [100; 1].
Proof.
  split; [by vm_compute|].
  split; [apply (treat_excel_file_extends db_archive workbook_league); by vm_compute|].
  split; by vm_compute.
Defined.

Example workbook_league_players :
  (bind (create_season workbook_league) (λ season,
   bind (create_divisions workbook_league season) (λ _,
   bind (create_teams workbook_league) (λ _,
   bind (create_team_divisions_relationship workbook_league) (λ _,
   create_players workbook_league))))) empty_db
  = (db_league_players, Ok 2).
Proof. by vm_compute. Qed.

Lemma player_team_links_resolve_witness :
  ∃ data_list_active data_list_inactive,
    rows (leagueplayerteams
            (create_team_players_relationship workbook_league db_league_players).1)
    = data_list_active ++ data_list_inactive
    ∧ Forall (λ l, active l = true) data_list_active
    ∧ Forall (λ l, active l = false) data_list_inactive.
Proof.
  destruct (player_team_links_resolve workbook_league _ db_league_players
              (create_team_players_relationship workbook_league db_league_players).1 3
              eq_refl ltac:(by vm_compute))
    as (data_list_active & data_list_inactive & Hrows & _ & Hactive & Hinactive).
  exists data_list_active, data_list_inactive. split; [done|].
  split; apply Forall_forall; intros l Hl; [by apply Hactive|by apply Hinactive].
Defined.

(** *** The matches and their details *)

Lemma get_title_is_Ok (r : MatchesRow) : (∃ t, get_title r = Ok t) ↔ Matchday r ≠ None.
Proof.
  unfold get_title. destruct (Matchday r) as [md|].
  - split; [done|]. intros _. repeat case_match; by eexists.
  - split; [by intros [t Ht]|done].
Qed.

Lemma match_create_input_is_Ok (x : MatchesRow * option Z) :
  (∃ m, match_create_input x = Ok m)
  ↔ Matchday x.1 ≠ None ∧ Time x.1 ≠ None ∧ x.2 ≠ None.
Proof.
  unfold match_create_input. split.
  - intros [m Hm]. destruct (get_title x.1) as [t|] eqn:Ht; simpl in Hm; [|done].
    destruct x.2; simpl in Hm; [|done]. destruct (Time x.1); simpl in Hm; [|done].
    split; [|done]. apply get_title_is_Ok. by exists t.
  - intros (Hmd & Htime & Hdiv). apply get_title_is_Ok in Hmd as [t ->]. simpl.
    destruct x.2; [|done]. destruct (Time x.1); [|done]. by eexists.
Qed.

Lemma merge_divisions_known (divisions : list LeagueDivision) (r : MatchesRow)
    (x : MatchesRow * option Z) :
  x ∈ merge_divisions divisions r →
  (x.2 ≠ None ↔ known division_name divisions (Matches_Division_name r))
  ∧ ∀ i, x.2 = Some i →
         ∃ d, d ∈ divisions ∧ Matches_Division_name r = Some (division_name d)
              ∧ i = division_id d.
Proof.
  unfold merge_divisions, known.
  destruct (filter _ divisions) as [|d ds] eqn:Hf.
  - intros ->%list_elem_of_singleton. simpl. split; [|done]. split; [done|].
    intros (d & Hd & Hname).
    assert (d ∈ filter (λ d, Some (division_name d) = Matches_Division_name r) divisions)
      as Hin by by apply list_elem_of_filter.
    rewrite Hf in Hin. by apply not_elem_of_nil in Hin.
  - intros (d' & -> & Hd')%list_elem_of_fmap. simpl.
    rewrite <- Hf in Hd'. apply list_elem_of_filter in Hd' as [Hname Hd'].
    split; [split; [|done]; intros _; by exists d'|].
    intros i [= <-]. by exists d'.
Qed.

Lemma filter_at_most_one {A B} (f : A → B) (P : A → Prop) `{∀ x, Decision (P x)}
    (l : list A) :
  NoDup (f <$> l) → (∀ a b, P a → P b → f a = f b) →
  filter P l = [] ∨ ∃ a, filter P l = [a].
Proof.
  intros Hnd Hsame. induction l as [|a l IH]; [by left|].
  rewrite fmap_cons in Hnd. apply NoDup_cons in Hnd as [Ha Hnd].
  rewrite filter_cons. destruct (decide (P a)) as [HPa|]; [|by apply IH].
  right. exists a. f_equal.
  destruct (filter P l) as [|b bs] eqn:Hf; [done|]. exfalso. apply Ha.
  assert (b ∈ filter P l) as [HPb Hb]%list_elem_of_filter by (rewrite Hf; left).
  rewrite (Hsame a b HPa HPb). apply list_elem_of_fmap. by exists b.
Qed.

Lemma merge_divisions_single (divisions : list LeagueDivision) (r : MatchesRow) :
  NoDup (division_name <$> divisions) → ∃ o, merge_divisions divisions r = [(r, o)].
Proof.
  intros Hnd. unfold merge_divisions.
  destruct (filter_at_most_one division_name
              (λ d, Some (division_name d) = Matches_Division_name r) divisions Hnd)
    as [->|[d ->]].
  - intros a b Ha Hb. rewrite <- Hb in Ha. by injection Ha.
  - by eexists.
  - by eexists.
Qed.

Lemma create_matches_data_list (divisions : list LeagueDivision) (l : list MatchesRow)
    (data_list : list LeagueMatch) :
  NoDup (division_name <$> divisions) →
  rmap match_create_input (l ≫= merge_divisions divisions) = Ok data_list →
  Forall2 (λ r m, ∃ o, (r, o) ∈ merge_divisions divisions r
                       ∧ match_create_input (r, o) = Ok m) l data_list.
Proof.
  intros Hnd. revert data_list. induction l as [|r l IH]; intros data_list; simpl.
  - intros [= <-]. constructor.
  - destruct (merge_divisions_single divisions r Hnd) as [o Ho]. rewrite Ho. simpl.
    destruct (match_create_input (r, o)) as [m|] eqn:Hm; simpl; [|done].
    destruct (rmap match_create_input _) as [ms|] eqn:Hms; simpl; [|done].
    intros [= <-]. constructor; [|by apply IH]. exists o. split; [rewrite Ho; left|done].
Qed.

(** X16: [create_matches] completes exactly when the Matches sheet has a
    kept row and every kept row has a matchday, a time that
    ["%I:%M:%S %p"] reads and the name of a division of the database: one
    row with a division name that is not known makes the step raise.  When
    the divisions of the database have distinct names, the matches it
    inserts are those of the kept rows, one for each, in the order of the
    sheet, with the id of the sheet, the title of [get_title] and the id of
    the division of that name. *)
Theorem create_matches_completes (excel : UploadedFile) (matches_df : list MatchesRow)
    (db : Prisma) :
  Matches excel = Some matches_df →
  ((∃ db' n, create_matches excel db = (db', Ok n))
   ↔ kept_rows matches_df ≠ []
     ∧ ∀ r, r ∈ kept_rows matches_df →
            Matchday r ≠ None ∧ Time r ≠ None
            ∧ known division_name (rows (leaguedivision db)) (Matches_Division_name r))
  ∧ (∀ db' n, create_matches excel db = (db', Ok n) →
       NoDup (division_name <$> rows (leaguedivision db)) →
       ∃ data_list,
         rows (leaguematch db') = rows (leaguematch db) ++ data_list
         ∧ n = Z.of_nat (length data_list)
         ∧ Forall2 (λ r m, match_id m = Matches_id r ∧ get_title r = Ok (title m)
                           ∧ ∃ d, d ∈ rows (leaguedivision db)
                                  ∧ Matches_Division_name r = Some (division_name d)
                                  ∧ leagueDivisionId m = division_id d)
                   (kept_rows matches_df) data_list).
Proof.
  intros Hsheet. unfold create_matches, bind, lift, find_many, create_many.
  rewrite Hsheet. simpl. split; [split|].
  - intros (db' & n & Hrun).
    destruct (apply_get_title (kept_rows matches_df)) as [titles|e] eqn:Ht; [|done].
    apply apply_get_title_Ok in Ht as [Hkept Ht].
    destruct (rows (leaguedivision db)) as [|d0 ds] eqn:Hdiv; [done|].
    destruct (rmap match_create_input _) as [data_list|e] eqn:Hdata; [|done].
    split; [done|]. intros r Hr. destruct (merge_divisions_not_empty (d0 :: ds) r) as [x Hx].
    pose proof (merge_divisions_row _ _ _ Hx) as Hx1.
    destruct (proj1 (rmap_is_Ok match_create_input _) (ex_intro _ _ Hdata) x) as [m Hm].
    { apply list_elem_of_bind. eauto. }
    destruct (proj1 (match_create_input_is_Ok x) (ex_intro _ _ Hm)) as (Hmd & Htime & Hd).
    rewrite Hx1 in Hmd, Htime. repeat (split; [done|]).
    by apply (merge_divisions_known _ _ _ Hx).
  - intros [Hkept Hall].
    destruct (proj2 (rmap_is_Ok get_title (kept_rows matches_df))) as [titles Ht].
    { intros r Hr. apply get_title_is_Ok. by apply Hall. }
    assert (apply_get_title (kept_rows matches_df) = Ok titles) as ->
      by by destruct (kept_rows matches_df).
    destruct (rows (leaguedivision db)) as [|d0 ds] eqn:Hdiv.
    { destruct (kept_rows matches_df) as [|r l]; [done|].
      destruct (Hall r) as (_ & _ & d & Hd & _); [left|]. by apply not_elem_of_nil in Hd. }
    destruct (proj2 (rmap_is_Ok match_create_input
                       (kept_rows matches_df ≫= merge_divisions (d0 :: ds))))
      as [data_list ->]; [|by eexists _, _].
    intros x (r & Hx & Hr)%list_elem_of_bind. apply match_create_input_is_Ok.
    rewrite (merge_divisions_row _ _ _ Hx). destruct (Hall r Hr) as (Hmd & Htime & Hd).
    repeat (split; [done|]). by apply (merge_divisions_known _ _ _ Hx).
  - intros db' n.
    destruct (apply_get_title (kept_rows matches_df)) as [titles|e] eqn:Ht; [|done].
    destruct (rows (leaguedivision db)) as [|d0 ds] eqn:Hdiv; [done|].
    destruct (rmap match_create_input _) as [data_list|e] eqn:Hdata; [|done].
    intros [= <- <-] Hnd. exists data_list. split; [by destruct db|]. split; [done|].
    eapply Forall2_impl; [by apply (create_matches_data_list _ _ _ Hnd Hdata)|].
    intros r m (o & Ho & Hm). split; [by apply (match_create_input_id _ _ Hm)|].
    destruct (merge_divisions_known _ _ _ Ho) as [_ Hid].
    unfold match_create_input in Hm. simpl in Hm.
    destruct (get_title r) as [t|]; simpl in Hm; [|done].
    destruct o as [i|]; simpl in Hm; [|done]. destruct (Time r); simpl in Hm; [|done].
    injection Hm as <-. simpl. split; [done|].
    destruct (Hid i eq_refl) as (d & Hd & Hname & ->). by exists d.
Qed.

Lemma create_matches_completes_witness :
  ∃ db' n, create_matches workbook_league db_league_players = (db', Ok n).
Proof.
  apply (proj1 (create_matches_completes workbook_league _ db_league_players eq_refl)).
  split; [by vm_compute|].
  intros r ->%list_elem_of_singleton. repeat (split; [done|]).
  eexists. split; [left|done].
Defined.

(** X17: each detail that [create_matches_details] inserts is that of a kept
    row of the sheet and of a team of the database: the team named in
    [Team1_name], at home, which starts red exactly when [Inverse] is 0, or
    the team named in [Team2_name], away, which starts red exactly when
    [Inverse] is not 0.  A side whose team name is not known gets no
    detail. *)
Theorem match_details_resolve (excel : UploadedFile) (matches_df : list MatchesRow)
    (db db' : Prisma) (n : Z) :
  Matches excel = Some matches_df →
  create_matches_details excel db = (db', Ok n) →
  ∃ data_list,
    rows (leaguematchdetail db') = rows (leaguematchdetail db) ++ data_list
    ∧ n = Z.of_nat (length data_list)
    ∧ ∀ d, d ∈ data_list →
        ∃ r t, r ∈ kept_rows matches_df ∧ t ∈ rows (leagueteam db)
               ∧ leagueMatchId d = Matches_id r ∧ leagueTeamId d = team_id t
               ∧ (home d = true ∧ Team1_name r = Some (team_name t)
                  ∧ startsRed d = bool_decide (Inverse r = 0)
                  ∨ home d = false ∧ Team2_name r = Some (team_name t)
                    ∧ startsRed d = bool_decide (Inverse r ≠ 0)).
Proof.
  intros Hsheet. unfold create_matches_details, bind, lift, find_many, create_many.
  rewrite Hsheet. simpl.
  destruct (apply_get_title (kept_rows matches_df)) as [titles|e]; [|done].
  destruct (id_by_name team_id team_name _) as [teams_dict|e] eqn:Htd; [|done].
  destruct (rows (leaguematch db)) as [|m0 ms] eqn:Hm; [done|].
  intros [= <- <-]. eexists. split; [by destruct db|]. split; [done|].
  intros d (x & Hd & (r & Hx & Hr)%list_elem_of_bind)%list_elem_of_bind.
  apply merge_matches_row in Hx as ->. exists r. unfold match_details in Hd.
  apply elem_of_app in Hd as [Hd|Hd]; case_decide as Hk;
    try (by apply not_elem_of_nil in Hd); apply list_elem_of_singleton in Hd as ->;
    destruct (id_or_sentinel_resolved _ _ _ _ _ Htd Hk) as (t & Ht & Hname & Hid);
    exists t; simpl; repeat (split; [done|]); [left|right]; repeat (split; [done|]).
  - done.
  - by destruct (decide (Inverse r = 0));
      [rewrite bool_decide_eq_true_2, bool_decide_eq_false_2 by tauto
      |rewrite bool_decide_eq_false_2, bool_decide_eq_true_2 by tauto].
Qed.

Lemma match_details_resolve_witness :
  ∃ data_list,
    rows (leaguematchdetail
            (create_matches_details workbook_league
               (create_matches workbook_league db_league_players).1).1)
    = data_list
    ∧ length data_list = 2%nat.
Proof.
  destruct (match_details_resolve workbook_league _
              (create_matches workbook_league db_league_players).1
              (create_matches_details workbook_league
                 (create_matches workbook_league db_league_players).1).1 2
              eq_refl ltac:(by vm_compute)) as (data_list & Hrows & _).
  exists data_list. split; [done|]. vm_compute in Hrows. by rewrite <- Hrows.
Defined.

(** X18: what the export writes in [Inverse] for a match whose details are
    those the import made of a row, in the order it inserted them: the
    row's flag (true when [Inverse] is not 0) when the first team name is
    known; the opposite flag when only the second team name is known, the
    only detail being then the one of the away team; and nothing when
    neither name is known. *)
Theorem export_inverse_of_match_details (teams_dict : gmap string Z) (x : MatchesRow) :
  export_inverse (match_details teams_dict x)
  = if decide (id_or_sentinel teams_dict (Team1_name x) ≠ -1)
    then Some (bool_decide (Inverse x ≠ 0))
    else if decide (id_or_sentinel teams_dict (Team2_name x) ≠ -1)
         then Some (bool_decide (Inverse x = 0))
         else None.
Proof.
  unfold match_details, export_inverse.
  destruct (decide (Inverse x = 0)) as [H0|H0];
    repeat case_decide; simpl; try done;
    rewrite ?(bool_decide_eq_true_2 _ H0), ?(bool_decide_eq_false_2 _ H0); simpl;
    f_equal; symmetry;
    first [ apply bool_decide_eq_true_2; tauto | apply bool_decide_eq_false_2; tauto ].
Qed.

(** *** The exported Players sheet *)

Lemma omap_arr_get_columns {A} (n : nat) (l : list A) :
  omap id (arr_get_columns n l) = take n l ∧ length (arr_get_columns n l) = n.
Proof.
  unfold arr_get_columns. split; [|by rewrite length_fmap, length_seq].
  revert l. induction n as [|n IH]; intros l; [done|].
  rewrite seq_S, fmap_app, omap_app, IH. simpl.
  destruct (l !! n) as [a|] eqn:Hn; simpl.
  - by rewrite (take_S_r _ _ _ Hn).
  - rewrite app_nil_r. apply lookup_ge_None in Hn. by rewrite !take_ge by lia.
Qed.

(** X19: a row of the exported Players sheet always has six nick columns and
    two old team columns; its filled cells are the first six nicks of the
    player, the first team the player is active in and the first two teams
    the player is no longer active in, in the order of the player's links.
    A seventh nick, a second active team and a third old team are not
    exported. *)
Theorem players_export_row_columns (p : PlayerWithTeams) :
  let row := players_export_row p in
  let teams (flag : bool) := (filter (λ pt, pt.2 = flag) (export_teams p)).*1 in
  exported_Player row = export_name p
  ∧ length (exported_nick row) = 6%nat
  ∧ omap id (exported_nick row) = take 6 (export_nicks p)
  ∧ exported_TEAM row = head (teams true)
  ∧ length (exported_old_team row) = 2%nat
  ∧ omap id (exported_old_team row) = take 2 (teams false).
Proof.
  intros row teams. unfold row, teams, players_export_row. cbn [exported_Player
    exported_nick exported_TEAM exported_old_team].
  split; [done|]. split; [apply omap_arr_get_columns|].
  split; [apply omap_arr_get_columns|].
  split; [by destruct (filter _ (export_teams p)).*1|].
  split; apply omap_arr_get_columns.
Qed.

(** *** The players *)

Lemma odict_set_keys {V} (k : string) (v : V) (d : list (string * V)) :
  (odict_set k v d).*1 = if decide (k ∈ d.*1) then d.*1 else d.*1 ++ [k].
Proof.
  induction d as [|[k' v'] d IH]; [done|]. cbn [odict_set].
  destruct (decide (k' = k)) as [->|Hne]; rewrite !fmap_cons; cbn [fst].
  - by rewrite decide_True by left.
  - rewrite IH. destruct (decide (k ∈ d.*1)) as [Hin|Hnin].
    + by rewrite decide_True by by right.
    + rewrite decide_False; [done|]. intros [->|?]%elem_of_cons; done.
Qed.

Lemma odict_set_elem {V} (k : string) (v : V) (d : list (string * V)) (k' : string) (v' : V) :
  NoDup d.*1 →
  (k', v') ∈ odict_set k v d ↔ (k' = k ∧ v' = v) ∨ (k' ≠ k ∧ (k', v') ∈ d).
Proof.
  induction d as [|[k0 v0] d IH]; simpl; intros Hnd.
  - rewrite list_elem_of_singleton. split.
    + intros [= -> ->]. by left.
    + intros [[-> ->]|[_ ?%not_elem_of_nil]]; done.
  - apply NoDup_cons in Hnd as [Hk0 Hnd].
    destruct (decide (k0 = k)) as [->|Hne]; rewrite !elem_of_cons.
    + split.
      * intros [[= -> ->]|Hin]; [by left|]. right. split; [|by right].
        intros ->. apply Hk0. apply list_elem_of_fmap. by exists (k, v').
      * intros [[-> ->]|[Hne [[= -> ->]|Hin]]]; [by left|done|by right].
    + rewrite (IH Hnd). split.
      * intros [[= -> ->]|[[-> ->]|[Hne' Hin]]];
          [right; split; [done|by left]|by left|right; split; [done|by right]].
      * intros [[-> ->]|[Hne' [[= -> ->]|Hin]]];
          [right; by left|by left|right; right; by split].
Qed.

(** The records of [df.T.to_dict("list")]: one for each name, with the nick
    cells of the last row of that name. *)
Lemma players_nicks_records_spec (players_df : list PlayersRow) :
  let d := foldl (λ d r, odict_set (Player r) (nick r) d) [] players_df in
  NoDup d.*1
  ∧ ∀ name cells,
      (name, cells) ∈ d
      ↔ ∃ r, last (filter (λ r, Player r = name) players_df) = Some r ∧ cells = nick r.
Proof.
  induction players_df as [|r l IH] using rev_ind; simpl.
  - split; [constructor|]. intros name cells. split; [by intros ?%not_elem_of_nil|].
    by intros (r & Hr & _).
  - rewrite foldl_app. simpl. destruct IH as [Hnd IH]. split.
    + rewrite odict_set_keys. case_decide; [done|].
      apply NoDup_app. split; [done|]. split; [|apply NoDup_singleton].
      by intros x Hx ->%list_elem_of_singleton.
    + intros name cells. rewrite (odict_set_elem _ _ _ _ _ Hnd), IH, filter_app.
      rewrite filter_cons, filter_nil.
      destruct (decide (Player r = name)) as [<-|Hne].
      * rewrite last_snoc. split.
        -- intros [[_ ->]|[? _]]; [by exists r|done].
        -- intros (r' & [= <-] & ->). by left.
      * rewrite app_nil_r. split.
        -- by intros [[-> _]|[_ H]].
        -- intros H. right. split; [|done]. by intros ->.
Qed.

(** X20: [create_players] never raises on a workbook that has a Players
    sheet.  It inserts one player for each distinct name of the sheet; a
    name that is on several rows gets the nicks of its last row only; the
    nicks of a player are the filled nick cells of that row, each one once. *)
Theorem create_players_distinct (excel : UploadedFile) (players_df : list PlayersRow)
    (db : Prisma) :
  Players excel = Some players_df →
  ∃ db' new,
    create_players excel db = (db', Ok (Z.of_nat (length new)))
    ∧ rows (leagueplayer db') = rows (leagueplayer db) ++ new
    ∧ NoDup (player_name <$> new)
    ∧ (∀ name, name ∈ player_name <$> new ↔ ∃ r, r ∈ players_df ∧ Player r = name)
    ∧ ∀ p, p ∈ new →
        NoDup (nicks p)
        ∧ ∃ r, last (filter (λ r, Player r = player_name p) players_df) = Some r
               ∧ ∀ s, s ∈ nicks p ↔ Some s ∈ nick r.
Proof.
  intros Hsheet. unfold create_players, bind, lift, create_many. rewrite Hsheet. simpl.
  destruct (players_nicks_records_spec players_df) as [Hnd Hrec]. simpl in Hnd, Hrec.
  set (records := foldl (λ d r, odict_set (Player r) (nick r) d) [] players_df) in *.
  set (data_list := (λ rec, _) <$> records).
  set (mk := λ (i : Z) (x : string * list string), _).
  destruct (append_auto_rows mk data_list (leagueplayer db)) as [Hrows _].
  assert (∀ p, p ∈ imap (λ i x, mk (last_id (leagueplayer db) + 1 + Z.of_nat i) x) data_list
               → ∃ rec, rec ∈ records ∧ player_name p = rec.1
                        ∧ nicks p = elements (list_to_set (omap id rec.2) : gset string))
    as Hnew.
  { intros p. rewrite elem_of_lookup_imap. intros (i & x & -> & Hx).
    apply list_elem_of_lookup_2 in Hx.
    apply list_elem_of_fmap in Hx as (rec & -> & Hrec'). by exists rec. }
  assert (player_name <$> imap (λ i x, mk (last_id (leagueplayer db) + 1 + Z.of_nat i) x)
                            data_list = records.*1) as Hnames.
  { apply list_eq. intros i. rewrite !list_lookup_fmap, list_lookup_imap.
    unfold data_list. rewrite list_lookup_fmap. by destruct (records !! i). }
  exists (set_leagueplayer (append_auto mk data_list) db),
         (imap (λ i x, mk (last_id (leagueplayer db) + 1 + Z.of_nat i) x) data_list).
  split; [|split; [|split; [|split]]].
  - by rewrite length_imap.
  - by destruct db.
  - by rewrite Hnames.
  - intros name. rewrite Hnames, list_elem_of_fmap. split.
    + intros ([k cells] & -> & (r & Hr & _)%Hrec). exists r.
      by apply last_Some_elem_of, list_elem_of_filter in Hr as [? ?].
    + intros (r & Hr & <-).
      destruct (last (filter (λ r', Player r' = Player r) players_df)) as [r'|] eqn:Hl.
      * exists (Player r, nick r'). split; [done|]. apply Hrec. by exists r'.
      * apply last_None in Hl.
        assert (r ∈ filter (λ r', Player r' = Player r) players_df) as Hf
          by by apply list_elem_of_filter.
        rewrite Hl in Hf. by apply not_elem_of_nil in Hf.
  - intros p ([k cells] & (r & Hr & ->)%Hrec & Hname & Hnicks)%Hnew. simpl in *.
    rewrite Hnicks. split; [apply NoDup_elements|]. exists r. rewrite Hname.
    split; [done|]. intros s. rewrite elem_of_elements, elem_of_list_to_set.
    rewrite list_elem_of_omap. split.
    + by intros ([s'|] & Hs & [= <-]).
    + intros Hs. by exists (Some s).
Qed.

Lemma create_players_distinct_witness :
  ∃ db' new,
    create_players workbook_league db_two_teams = (db', Ok (Z.of_nat (length new)))
    ∧ rows (leagueplayer db') = rows (leagueplayer db_two_teams) ++ new.
Proof.
  destruct (create_players_distinct workbook_league _ db_two_teams eq_refl)
    as (db' & new & Hrun & Hrows & _).
  by exists db', new.
Defined.

End DbFacts.
